(** * bulk_extractor.py: input reader, orchestration loop and CSV output

    A shallow embedding of [bulk_extractor.py].  The script owns three things:
    the parsing of [websites.txt] ([read_websites_from_file]), the loop over
    the websites with its placeholder and error rows, and the configuration
    of the CSV saver.  Everything else is the [extract_emails] library and
    [urllib.parse], which appear here as interfaces ([UrlLib],
    [ExtractEmails]) that the theorems quantify over.

    Conventions.
    - A Python [str] is a [string]; its characters are the code points below
      256.
    - An exception object is a [PyExc]: an instance of a class derived from
      [Exception], which is what the library calls raise and what
      [except Exception] catches.  [sys.exit] is the separate outcome
      [SysExit], which no handler of the script intercepts.
    - [print] only writes to the console and is left out. *)

From Stdlib Require Import ZArith Ascii.
From stdpp Require Import gmap strings list fin_maps.

(** ** Python strings *)

Module Py.

(** [str.isspace] on one character, for the code points below 256:
    TAB, LF, VT, FF, CR, FS, GS, RS, US, SPACE, NEL and NBSP. *)
Definition isspace (c : ascii) : bool :=
  let n := N_of_ascii c in
  ((9 <=? n) && (n <=? 13) || (28 <=? n) && (n <=? 32)
   || (n =? 133) || (n =? 160))%N.

(** [s.lstrip()] *)
Fixpoint lstrip (s : string) : string :=
  match s with
  | EmptyString => EmptyString
  | String c s' => if isspace c then lstrip s' else s
  end.

(** [s.rstrip()] *)
Fixpoint rstrip (s : string) : string :=
  match s with
  | EmptyString => EmptyString
  | String c s' =>
      match rstrip s' with
      | EmptyString => if isspace c then EmptyString else String c EmptyString
      | r => String c r
      end
  end.

(** [s.strip()] *)
Definition strip (s : string) : string := rstrip (lstrip s).

(** [s.startswith(p)] *)
Definition startswith (s p : string) : bool := String.prefix p s.

(** [s[0:n]] for [n >= 0] *)
Definition slice_to (n : nat) (s : string) : string := String.substring 0 n s.

(** [x in l] on a list of strings *)
Definition contains (l : list string) (x : string) : bool :=
  existsb (String.eqb x) l.

(** Truth value of a [str]: the empty string is falsy. *)
Definition truthy (s : string) : bool := negb (String.eqb s "").

End Py.

(** A line feed, the terminator of a line of the input file. *)
Definition LF : string := String "010"%char EmptyString.

(** ** Exceptions and outcomes *)

(** An exception object: [type(e).__name__] and [str(e)]. *)
Record PyExc := { exc_type : string; exc_msg : string }.

(** How a piece of the script ends: it returns, it raises, or it leaves
    through [sys.exit(status)]. *)
Inductive Outcome (A : Type) : Type :=
| Return (a : A)
| Raise (e : PyExc)
| SysExit (status : Z).
Arguments Return {A} a.
Arguments Raise {A} e.
Arguments SysExit {A} status.

(** A call into a library returns or raises. *)
Definition of_call {A} (r : PyExc + A) : Outcome A :=
  match r with
  | inl e => Raise e
  | inr a => Return a
  end.

(** ** Configuration *)

Definition INPUT_FILE : string := "websites.txt".
Definition OUTPUT_FILE : string := "output.csv".
Definition CRAWL_DEPTH : Z := 10.
Definition MAX_LINKS_PER_PAGE : Z := 1.
Definition DEFAULT_SCHEME : string := "https".
Definition CSV_HEADERS : list string := ["page"; "email"; "website"].

(** ** [urllib.parse] *)

(** The result of [urlparse]; the script reads its [scheme] only. *)
Record ParseResult := { scheme : string }.

(** [urlparse] belongs to the standard library: it returns a parse result
    or raises [ValueError]. *)
Class UrlLib := { urlparse : string -> PyExc + ParseResult }.

(** ** The input reader *)

Section Reader.
Context `{url_lib : UrlLib}.

(** What one iteration of [for line in f] does to [websites]. *)
Definition read_line (line : string) (websites : list string)
  : PyExc + list string :=
  let url := Py.strip line in
  if negb (Py.truthy url) || Py.startswith url "#" then inr websites
  else
    match urlparse url with
    | inl e => inl e
    | inr parsed =>
        if negb (Py.truthy (scheme parsed)) then
          let url := DEFAULT_SCHEME +:+ "://" +:+ url in
          inr (websites ++ [url])
        else if negb (Py.contains ["http"; "https"] (scheme parsed)) then
          inr websites
        else inr (websites ++ [url])
    end.

(** The [for line in f] loop. *)
Fixpoint read_lines (lines : list string) (websites : list string)
  : PyExc + list string :=
  match lines with
  | [] => inr websites
  | line :: rest =>
      match read_line line websites with
      | inl e => inl e
      | inr websites' => read_lines rest websites'
      end
  end.

(** [read_websites_from_file(filename)], on the text files [texts]: a path
    maps to the lines that iterating the open file yields, each with its line
    terminator.  A path that is absent is not a regular file. *)
Definition read_websites_from_file
    (texts : gmap string (list string)) (filename : string)
  : Outcome (list string) :=
  match texts !! filename with
  | None => SysExit 1
  | Some lines => of_call (read_lines lines [])
  end.

End Reader.

(** ** The [extract_emails] library *)

(** The saver object: what [CsvSaver(save_mode=..., output_path=...,
    headers=...)] was given. *)
Record CsvSaver := {
  save_mode : string;
  output_path : string;
  headers : list string
}.

(** An element of a list handed to [CsvSaver.save]: a result object of the
    library, or a [dict] built by the script. *)
Inductive Item (P : Type) : Type :=
| Obj (p : P)
| Dict (d : gmap string string).
Arguments Obj {P} p.
Arguments Dict {P} d.

(** The library as the script uses it.  [World] is everything the library
    depends on and changes (the network, its sessions, the disk); the objects
    it hands out are opaque.  Every call returns or raises. *)
Class ExtractEmails := {
  World : Type;
  Browser : Type;
  Factory : Type;
  Worker : Type;
  PageData : Type;
  (** [getattr(obj, name)] on a result object *)
  getattr : PageData -> string -> option string;
  (** [Browser()] *)
  new_Browser : World -> (PyExc + Browser) * World;
  (** [Factory(website_url=, browser=, depth=, max_links_from_page=)] *)
  new_Factory :
    string -> Browser -> Z -> Z -> World -> (PyExc + Factory) * World;
  (** [DefaultWorker(factory)] *)
  new_DefaultWorker : Factory -> World -> (PyExc + Worker) * World;
  (** [worker.get_data()] *)
  get_data : Worker -> World -> (PyExc + list PageData) * World;
  (** whether [saver.save(data)] raises instead of writing *)
  save_error :
    CsvSaver -> list (Item PageData) -> World -> option PyExc * World
}.

Section Script.
Context `{url_lib : UrlLib} `{lib : ExtractEmails}.

(** *** Rows of the CSV file *)

(** The value of column [h] for an item: an attribute of an object, a key
    of a dict. *)
Definition field (it : Item PageData) (h : string) : option string :=
  match it with
  | Obj p => getattr p h
  | Dict d => d !! h
  end.

(** Modelled from the spec: [CsvSaver.save] is the library's and not part of
    the sources.  Per the spec the output writer appends the records to the
    CSV file using a fixed column header order: a record gives one row, with
    one cell per header, in the order of the headers; a missing value gives
    an empty cell. *)
Definition csv_row (hs : list string) (it : Item PageData) : list string :=
  map (fun h => default "" (field it h)) hs.

(** Modelled from the spec: the file modes of [CsvSaver].  Mode ['a']
    keeps what the file holds and writes after it; any other mode (['w'])
    starts from an empty file. *)
Definition write_rows (mode : string)
    (old new : list (list string)) : list (list string) :=
  if String.eqb mode "a" then old ++ new else new.

(** *** Calls into the library, as the run makes them *)

Inductive Event : Type :=
| EBrowser (r : PyExc + Browser)
| ECsvSaver (saver : CsvSaver)
| EFactory (website_url : string) (browser : Browser)
    (depth max_links_from_page : Z) (r : PyExc + Factory)
| EDefaultWorker (factory : Factory) (r : PyExc + Worker)
| EGetData (worker : Worker) (r : PyExc + list PageData)
| ESave (saver : CsvSaver) (data : list (Item PageData)) (r : option PyExc).

(** *** The state of a run *)

Record State := {
  (** the text files: path to lines *)
  texts : gmap string (list string);
  (** the CSV files: path to rows *)
  csvs : gmap string (list (list string));
  (** the state of the library *)
  world : World;
  (** the library calls made so far, oldest first, each with its result *)
  events : list Event
}.

(** The rows of [output.csv]; an absent file has none. *)
Definition output_rows (st : State) : list (list string) :=
  default [] (csvs st !! OUTPUT_FILE).

(** *** State and exception monad *)

Definition M (A : Type) : Type := State -> Outcome A * State.

Definition ret {A} (a : A) : M A := fun st => (Return a, st).

Definition bind {A B} (m : M A) (k : A -> M B) : M B :=
  fun st =>
    match m st with
    | (Return a, st') => k a st'
    | (Raise e, st') => (Raise e, st')
    | (SysExit s, st') => (SysExit s, st')
    end.

(** [try: body except Exception as e: handler(e)] *)
Definition try_except {A} (body : M A) (handler : PyExc -> M A) : M A :=
  fun st =>
    match body st with
    | (Raise e, st') => handler e st'
    | r => r
    end.

(** A library call: the world moves, the call is logged with its result. *)
Definition call {A} (f : World -> (PyExc + A) * World)
    (ev : (PyExc + A) -> Event) : M A :=
  fun st =>
    let (r, w) := f (world st) in
    (of_call r,
     {| texts := texts st; csvs := csvs st; world := w;
        events := events st ++ [ev r] |}).

End Script.

Declare Scope script_scope.
Delimit Scope script_scope with script.
Notation "x <- m ;; k" := (bind m (fun x => k))
  (at level 100, m at next level, right associativity) : script_scope.
Notation "m ;;; k" := (bind m (fun _ => k))
  (at level 100, right associativity) : script_scope.

(** ** The script *)

Section Main.
Context `{url_lib : UrlLib} `{lib : ExtractEmails}.
Local Open Scope script_scope.

(** [Browser()] *)
Definition Browser_ : M Browser := call new_Browser EBrowser.

(** [CsvSaver(save_mode=m, output_path=Path(p), headers=hs)] *)
Definition CsvSaver_ (m p : string) (hs : list string) : M CsvSaver :=
  fun st =>
    let saver := {| save_mode := m; output_path := p; headers := hs |} in
    (Return saver,
     {| texts := texts st; csvs := csvs st; world := world st;
        events := events st ++ [ECsvSaver saver] |}).

(** [Factory(website_url=u, browser=b, depth=d, max_links_from_page=n)] *)
Definition Factory_ (u : string) (b : Browser) (d n : Z) : M Factory :=
  call (new_Factory u b d n) (EFactory u b d n).

(** [DefaultWorker(factory)] *)
Definition DefaultWorker_ (f : Factory) : M Worker :=
  call (new_DefaultWorker f) (EDefaultWorker f).

(** [worker.get_data()] *)
Definition get_data_ (w : Worker) : M (list PageData) :=
  call (get_data w) (EGetData w).

(** Modelled from the spec: [saver.save(data)].  The call either raises and
    leaves the file as it was, or writes one row per record to the saver's
    path, in the saver's mode, with the saver's headers. *)
Definition save (saver : CsvSaver) (data : list (Item PageData)) : M unit :=
  fun st =>
    let (r, w) := save_error saver data (world st) in
    let evs := events st ++ [ESave saver data r] in
    match r with
    | Some e =>
        (Raise e,
         {| texts := texts st; csvs := csvs st; world := w; events := evs |})
    | None =>
        let old := default [] (csvs st !! output_path saver) in
        let new := map (csv_row (headers saver)) data in
        (Return tt,
         {| texts := texts st;
            csvs := <[output_path saver :=
                        write_rows (save_mode saver) old new]> (csvs st);
            world := w; events := evs |})
    end.

(** The dict of the placeholder row. *)
Definition placeholder (website : string) : gmap string string :=
  <["website" := website]> (<["email" := ""]> {["page" := website]}).

(** The dict of the error row. *)
Definition error_placeholder (website : string) (e : PyExc)
  : gmap string string :=
  <["website" := website]>
    (<["email" := Py.slice_to 200
                    ("ERROR: " +:+ exc_type e +:+ ": " +:+ exc_msg e)]>
       {["page" := "ERROR_DURING_PROCESSING"]}).

(** The body of the outer [try]; it returns [data_found_for_website]. *)
Definition try_body (browser : Browser) (data_saver : CsvSaver)
    (website : string) : M bool :=
  factory <- Factory_ website browser CRAWL_DEPTH MAX_LINKS_PER_PAGE ;;
  worker <- DefaultWorker_ factory ;;
  raw_data <- get_data_ worker ;;
  match raw_data with
  | _ :: _ =>
      (save data_saver (map Obj raw_data) ;;;
       ret true)
  | [] =>
      let placeholder_data := [Dict (placeholder website)] in
      (save data_saver placeholder_data ;;;
       ret true)
  end.

(** The outer [except Exception as e] clause, up to its [continue]. *)
Definition except_body (data_saver : CsvSaver) (website : string)
    (e : PyExc) : M bool :=
  try_except
    (let error_placeholder := [Dict (error_placeholder website e)] in
     (save data_saver error_placeholder ;;;
      ret true))
    (fun save_err => ret false).

(** One iteration of the [for] loop; it returns the final value of
    [data_found_for_website]. *)
Definition process_website (browser : Browser) (data_saver : CsvSaver)
    (website : string) : M bool :=
  try_except (try_body browser data_saver website)
             (except_body data_saver website).

(** [for i, website in enumerate(websites_to_crawl, 1)] *)
Fixpoint crawl (browser : Browser) (data_saver : CsvSaver)
    (websites : list string) : M unit :=
  match websites with
  | [] => ret tt
  | website :: rest =>
      (process_website browser data_saver website ;;;
       crawl browser data_saver rest)
  end.

(** The module body, from [websites_to_crawl = ...] to the end. *)
Definition main : M unit :=
  websites_to_crawl <-
    (fun st => (read_websites_from_file (texts st) INPUT_FILE, st)) ;;
  match websites_to_crawl with
  | [] => fun st => (SysExit 0, st)
  | _ :: _ =>
      browser <- Browser_ ;;
      data_saver <- CsvSaver_ "a" OUTPUT_FILE CSV_HEADERS ;;
      crawl browser data_saver websites_to_crawl
  end.

End Main.

(** ** An instance of [urllib.parse]

    [urlsplit] of CPython's [urllib/parse.py], which [urlparse] calls first
    and whose scheme it returns, restricted to the steps that decide the
    scheme and to the bracket check of the network location.  The standard
    library is not part of the sources; this instance serves the concrete
    runs below, and the theorems hold for every [UrlLib]. *)

Module Urllib.

Definition code (c : ascii) : N := N_of_ascii c.

(** [_WHATWG_C0_CONTROL_OR_SPACE] *)
Definition c0_control_or_space (c : ascii) : bool := (code c <=? 32)%N.

(** [url.lstrip(_WHATWG_C0_CONTROL_OR_SPACE)] *)
Fixpoint lstrip_c0 (s : string) : string :=
  match s with
  | EmptyString => EmptyString
  | String c s' => if c0_control_or_space c then lstrip_c0 s' else s
  end.

(** [_UNSAFE_URL_BYTES_TO_REMOVE]: TAB, CR, LF *)
Definition unsafe (c : ascii) : bool :=
  ((code c =? 9) || (code c =? 13) || (code c =? 10))%N.

Fixpoint remove_unsafe (s : string) : string :=
  match s with
  | EmptyString => EmptyString
  | String c s' =>
      if unsafe c then remove_unsafe s' else String c (remove_unsafe s')
  end.

(** [c.isascii() and c.isalpha()] *)
Definition ascii_alpha (c : ascii) : bool :=
  ((65 <=? code c) && (code c <=? 90)
   || (97 <=? code c) && (code c <=? 122))%N.

(** [c in scheme_chars]: letters, digits, [+], [-] and [.] *)
Definition scheme_char (c : ascii) : bool :=
  (ascii_alpha c || (48 <=? code c) && (code c <=? 57)
   || (code c =? 43) || (code c =? 45) || (code c =? 46))%N.

Definition lower_char (c : ascii) : ascii :=
  if ((65 <=? code c) && (code c <=? 90))%N
  then ascii_of_N (code c + 32) else c.

Fixpoint lower (s : string) : string :=
  match s with
  | EmptyString => EmptyString
  | String c s' => String (lower_char c) (lower s')
  end.

Fixpoint all_chars (p : ascii -> bool) (s : string) : bool :=
  match s with
  | EmptyString => true
  | String c s' => p c && all_chars p s'
  end.

Fixpoint has_char (c : ascii) (s : string) : bool :=
  match s with
  | EmptyString => false
  | String d s' => Ascii.eqb c d || has_char c s'
  end.

(** [s.find(c)]; [None] is Python's [-1]. *)
Fixpoint find (c : ascii) (s : string) : option nat :=
  match s with
  | EmptyString => None
  | String d s' =>
      if Ascii.eqb c d then Some 0%nat else option_map S (find c s')
  end.

(** [s[i:]] *)
Fixpoint drop_chars (i : nat) (s : string) : string :=
  match i, s with
  | O, _ => s
  | S i', EmptyString => EmptyString
  | S i', String _ s' => drop_chars i' s'
  end.

(** The scheme and the rest of the URL, after [i = url.find(':')]. *)
Definition split_scheme (url : string) : string * string :=
  match find ":" url, url with
  | Some (S i), String c0 _ =>
      if ascii_alpha c0 && all_chars scheme_char (String.substring 0 (S i) url)
      then (lower (String.substring 0 (S i) url), drop_chars (S (S i)) url)
      else (EmptyString, url)
  | _, _ => (EmptyString, url)
  end.

(** The first component of [_splitnetloc(url, 2)]: from index 2 to the first
    of [/], [?] and [#]. *)
Fixpoint until_delim (s : string) : string :=
  match s with
  | EmptyString => EmptyString
  | String c s' =>
      if has_char c "/?#" then EmptyString else String c (until_delim s')
  end.

Definition urlsplit (url : string) : PyExc + ParseResult :=
  let url := remove_unsafe (lstrip_c0 url) in
  let (sch, url) := split_scheme url in
  let netloc :=
    if String.prefix "//" url then until_delim (drop_chars 2 url)
    else EmptyString in
  if has_char "[" netloc && negb (has_char "]" netloc)
     || has_char "]" netloc && negb (has_char "[" netloc)
  then inl {| exc_type := "ValueError"; exc_msg := "Invalid IPv6 URL" |}
  else inr {| scheme := sch |}.

End Urllib.

#[export] Instance cpython_urllib : UrlLib := {| urlparse := Urllib.urlsplit |}.

(** ** An instance of the library

    A scripted library for concrete runs.  The world is the list of the
    outcomes of the coming [save] calls ([true]: the call raises [OSError]);
    once the list is used up every [save] succeeds.  A factory and a worker
    carry the URL they were made for; what [get_data] does depends on that
    URL. *)

Module Demo.

Record Page := { page : string; email : string; website : string }.

Definition scripted_getattr (p : Page) (h : string) : option string :=
  if String.eqb h "page" then Some (page p)
  else if String.eqb h "email" then Some (email p)
  else if String.eqb h "website" then Some (website p)
  else None.

Definition scripted_new_Browser (w : list bool) : (PyExc + unit) * list bool :=
  (inr tt, w).

Definition scripted_new_Factory (u : string) (b : unit) (d n : Z)
    (w : list bool)
  : (PyExc + string) * list bool :=
  (inr u, w).

Definition scripted_new_DefaultWorker (f : string) (w : list bool)
  : (PyExc + string) * list bool :=
  (inr f, w).

Definition scripted_get_data (wk : string) (w : list bool)
  : (PyExc + list Page) * list bool :=
  if String.eqb wk "https://down.example" then
    (inl {| exc_type := "ConnectionError"; exc_msg := "no route to host" |},
     w)
  else if String.eqb wk "https://empty.example" then (inr [], w)
  else
    (inr [ {| page := wk +:+ "/contact"; email := "info@shop.example";
              website := wk |} ], w).

Definition scripted_save_error (sv : CsvSaver) (data : list (Item Page))
    (w : list bool) : option PyExc * list bool :=
  match w with
  | true :: w' =>
      (Some {| exc_type := "OSError"; exc_msg := "disk full" |}, w')
  | false :: w' => (None, w')
  | [] => (None, [])
  end.

#[export] Instance library : ExtractEmails := {|
  World := list bool;
  Browser := unit;
  Factory := string;
  Worker := string;
  PageData := Page;
  getattr := scripted_getattr;
  new_Browser := scripted_new_Browser;
  new_Factory := scripted_new_Factory;
  new_DefaultWorker := scripted_new_DefaultWorker;
  get_data := scripted_get_data;
  save_error := scripted_save_error
|}.

(** A run starts with the given lines in [websites.txt], the given rows in
    [output.csv] and the given script of [save] outcomes. *)
Definition start (lines : list string) (rows : list (list string))
    (saves : list bool) : State :=
  {| texts := {[INPUT_FILE := lines]};
     csvs := {[OUTPUT_FILE := rows]};
     world := saves;
     events := [] |}.

(** An input file with a comment, a blank line, a URL without scheme, an
    indented [http] URL, an [ftp] URL and a last line without terminator. *)
Definition websites_txt : list string :=
  ["# shops" +:+ LF; LF; "shop.example" +:+ LF;
   "  http://a.example/x  " +:+ LF; "ftp://files.example" +:+ LF;
   "https://b.example"].

(** An input file with one site that has no email, one that is down and one
    with a contact page. *)
Definition three_sites : list string :=
  ["empty.example" +:+ LF; "https://down.example" +:+ LF;
   "shop.example" +:+ LF].

(** A row that [output.csv] holds before the run. *)
Definition old_row : list string :=
  ["https://old.example/about"; "hello@old.example"; "https://old.example"].

(** The same library on a machine where [Browser()] raises. *)
Definition no_browser : ExtractEmails := {|
  World := list bool;
  Browser := unit;
  Factory := string;
  Worker := string;
  PageData := Page;
  getattr := scripted_getattr;
  new_Browser := fun w =>
    (inl {| exc_type := "RuntimeError"; exc_msg := "no session" |}, w);
  new_Factory := scripted_new_Factory;
  new_DefaultWorker := scripted_new_DefaultWorker;
  get_data := scripted_get_data;
  save_error := scripted_save_error
|}.

(** A start on that machine, with [three_sites] to visit. *)
Definition no_browser_start : @State no_browser :=
  {| texts := {[INPUT_FILE := three_sites]};
     csvs := {[OUTPUT_FILE := [old_row]]};
     world := ([] : @World no_browser); events := [] |}.

(** An input file whose second line [urlparse] rejects. *)
Definition bad_line_txt : list string :=
  ["shop.example" +:+ LF; "http://[::1" +:+ LF; "https://b.example" +:+ LF].

(** No [websites.txt]. *)
Definition no_input : State :=
  {| texts := ∅; csvs := {[OUTPUT_FILE := [old_row]]};
     world := []; events := [] |}.

End Demo.

(** ** Specification of the reader *)

Section ReaderSpec.
Context `{url_lib : UrlLib}.

(** The stripped line reaches [urlparse]: it is neither blank nor a
    comment. *)
Definition candidate (url : string) : bool :=
  Py.truthy url && negb (Py.startswith url "#").

(** The scheme [urlparse] finds in [url]; [None] when it raises. *)
Definition scheme_of (url : string) : option string :=
  match urlparse url with
  | inl _ => None
  | inr parsed => Some (scheme parsed)
  end.

(** The scheme is missing, [http] or [https]. *)
Definition supported (url : string) : bool :=
  match scheme_of url with
  | Some s => String.eqb s "" || Py.contains ["http"; "https"] s
  | None => false
  end.

(** Scheme normalization: a URL without scheme gets [https://]. *)
Definition normalize (url : string) : string :=
  match scheme_of url with
  | Some EmptyString => DEFAULT_SCHEME +:+ "://" +:+ url
  | _ => url
  end.

(** The non-blank lines whose stripped text does not start with [#], in file
    order, after scheme normalization. *)
Definition non_comment_lines_normalized (lines : list string) : list string :=
  map normalize (List.filter candidate (map Py.strip lines)).

(** Of those, the ones with a supported scheme. *)
Definition supported_lines_normalized (lines : list string) : list string :=
  map normalize
    (List.filter supported (List.filter candidate (map Py.strip lines))).

(** The error of the first line on which [urlparse] raises, if any. *)
Fixpoint first_parse_error (lines : list string) : option PyExc :=
  match lines with
  | [] => None
  | line :: rest =>
      if candidate (Py.strip line) then
        match urlparse (Py.strip line) with
        | inl e => Some e
        | inr _ => first_parse_error rest
        end
      else first_parse_error rest
  end.

(** [urlparse] finds the scheme that the reader prefixes. *)
Definition default_scheme_recognised : Prop :=
  forall u parsed,
    urlparse (DEFAULT_SCHEME +:+ "://" +:+ u) = inr parsed ->
    scheme parsed = DEFAULT_SCHEME.

End ReaderSpec.

(** ** Specification of the orchestration loop *)

Section LoopSpec.
Context `{lib : ExtractEmails}.

(** The saver that the script configures. *)
Definition the_data_saver : CsvSaver :=
  {| save_mode := "a"; output_path := "output.csv";
     headers := ["page"; "email"; "website"] |}.

(** What the [try] block hands to [save]: the records, or one placeholder
    when there are none. *)
Definition records_to_save (website : string) (raw_data : list PageData)
  : list (Item PageData) :=
  match raw_data with
  | [] => [Dict (placeholder website)]
  | _ :: _ => map Obj raw_data
  end.

(** The calls of the [try] block for the website [website], with how the
    block ends: [None] when it completes, [Some e] when it raises [e]. *)
Inductive try_events (b : Browser) (sv : CsvSaver) (website : string)
  : option PyExc -> list Event -> Prop :=
| factory_raised e :
    try_events b sv website (Some e)
      [EFactory website b 10 1 (inl e)]
| worker_raised f e :
    try_events b sv website (Some e)
      [EFactory website b 10 1 (inr f);
       EDefaultWorker f (inl e)]
| get_data_raised f wk e :
    try_events b sv website (Some e)
      [EFactory website b 10 1 (inr f);
       EDefaultWorker f (inr wk);
       EGetData wk (inl e)]
| save_raised f wk raw_data e :
    try_events b sv website (Some e)
      [EFactory website b 10 1 (inr f);
       EDefaultWorker f (inr wk);
       EGetData wk (inr raw_data);
       ESave sv (records_to_save website raw_data) (Some e)]
| data_saved f wk raw_data :
    try_events b sv website None
      [EFactory website b 10 1 (inr f);
       EDefaultWorker f (inr wk);
       EGetData wk (inr raw_data);
       ESave sv (records_to_save website raw_data) None].

(** The calls of one iteration of the loop: those of the [try] block and,
    when it raised [e], one [save] of the error record for [e], whatever the
    result [r] of that [save]. *)
Inductive iteration_events (b : Browser) (sv : CsvSaver) (website : string)
  : list Event -> Prop :=
| completed evs :
    try_events b sv website None evs ->
    iteration_events b sv website evs
| handled e evs r :
    try_events b sv website (Some e) evs ->
    iteration_events b sv website
      (evs ++ [ESave sv [Dict (error_placeholder website e)] r]).

(** What one [save] through [sv] may have done to the CSV files between
    [st] and [st']: nothing, or a write of the rows of [data]. *)
Definition saved_rows (sv : CsvSaver) (st st' : State)
    (data : list (Item PageData)) : Prop :=
  csvs st' =
    <[output_path sv :=
        write_rows (save_mode sv) (default [] (csvs st !! output_path sv))
          (map (csv_row (headers sv)) data)]> (csvs st).

(** The arguments of the [Factory] calls among the events, in order. *)
Definition factory_calls (evs : list Event)
  : list (string * Browser * Z * Z) :=
  flat_map (fun ev =>
              match ev with
              | EFactory u b d n _ => [(u, b, d, n)]
              | _ => []
              end) evs.

(** The savers of the [save] calls among the events, in order. *)
Definition save_calls (evs : list Event) : list CsvSaver :=
  flat_map (fun ev =>
              match ev with
              | ESave sv _ _ => [sv]
              | _ => []
              end) evs.

(** The run from [st] to [st'] left every CSV file but [output.csv] as it
    was, and wrote [rows] after what [output.csv] held. *)
Definition appended (st st' : State) (rows : list (list string)) : Prop :=
  (forall p, p <> OUTPUT_FILE -> csvs st' !! p = csvs st !! p)
  /\ output_rows st' = output_rows st ++ rows.

End LoopSpec.

(** ** [tmp.py]

    The first version of the script: two fixed websites, depth 5, a saver
    built without [headers=], no [try]. *)

Module Tmp.
Section Script.
Context `{lib : ExtractEmails}.
Local Open Scope script_scope.

(** The headers of a saver built without [headers=]: the default of the
    library, which is not part of the sources. *)
Variable default_headers : list string.

Definition websites : list string :=
  ["https://highleads.co/"; "https://1337.ma/"].

(** The body of [for website in websites]. *)
Definition body (browser : Browser) (data_saver : CsvSaver)
    (website : string) : M unit :=
  factory <- Factory_ website browser 5 1 ;;
  worker <- DefaultWorker_ factory ;;
  data <- get_data_ worker ;;
  save data_saver (map Obj data).

(** [for website in websites] *)
Fixpoint loop (browser : Browser) (data_saver : CsvSaver)
    (websites : list string) : M unit :=
  match websites with
  | [] => ret tt
  | website :: rest =>
      (body browser data_saver website ;;;
       loop browser data_saver rest)
  end.

(** The module body. *)
Definition main : M unit :=
  browser <- Browser_ ;;
  data_saver <- CsvSaver_ "a" "output.csv" default_headers ;;
  loop browser data_saver websites.

End Script.
End Tmp.

(** ** More projections of the log *)

Section LogSpec.
Context `{lib : ExtractEmails}.

(** The results of the [save] calls among the events, in order. *)
Definition save_results (evs : list Event) : list (option PyExc) :=
  flat_map (fun ev =>
              match ev with
              | ESave _ _ r => [r]
              | _ => []
              end) evs.

(** The [save] calls among the events, in order: saver, data, result. *)
Definition saves (evs : list Event)
  : list (CsvSaver * list (Item PageData) * option PyExc) :=
  flat_map (fun ev =>
              match ev with
              | ESave sv data r => [(sv, data, r)]
              | _ => []
              end) evs.

(** The exceptions that the calls among the events raised, in order. *)
Definition raised (evs : list Event) : list PyExc :=
  flat_map (fun ev =>
              match ev with
              | EBrowser (inl e) => [e]
              | EFactory _ _ _ _ (inl e) => [e]
              | EDefaultWorker _ (inl e) => [e]
              | EGetData _ (inl e) => [e]
              | ESave _ _ (Some e) => [e]
              | _ => []
              end) evs.

(** The row of a record in the column order page, email, website: its
    page first, its email second, its website third. *)
Definition page_email_website_row (it : Item PageData) : list string :=
  [default "" (field it "page"); default "" (field it "email");
   default "" (field it "website")].

(** The rows of the records of the [save] calls that succeeded, in the
    order of the calls and, within a call, of its records. *)
Definition rows_saved (evs : list Event) : list (list string) :=
  flat_map (fun ev =>
              match ev with
              | ESave _ data None => map page_email_website_row data
              | _ => []
              end) evs.

(** From [st] to [st'] the run made the calls [new]; its [save] calls went
    through the configured saver, and what it did to the CSV files is to
    put the rows of the saved records after what [output.csv] held. *)
Definition tracks (st st' : State) : Prop :=
  exists new,
    events st' = events st ++ new
    /\ Forall (fun saver => saver = the_data_saver) (save_calls new)
    /\ appended st st' (rows_saved new).

(** Every run of [m] does so. *)
Definition tracking {A} (m : M A) : Prop :=
  forall st, tracks st (m st).2.

(** The websites of the [Factory] calls among the events, in order. *)
Definition visited (evs : list Event) : list string :=
  flat_map (fun ev =>
              match ev with
              | EFactory u _ _ _ _ => [u]
              | _ => []
              end) evs.

End LogSpec.


(** What a user of the returned list relies on: the URL is not empty, is
    not a comment and carries no surrounding white space. *)
Definition clean_url (u : string) : Prop :=
  u <> "" /\ Py.startswith u "#" = false /\ Py.strip u = u.

(** * Theorems *)

(** ** The reader *)

Section ReaderFacts.
Context `{url_lib : UrlLib}.

Lemma first_parse_error_app l1 l2 :
  first_parse_error (l1 ++ l2) =
  match first_parse_error l1 with
  | Some e => Some e
  | None => first_parse_error l2
  end.
Proof.
  induction l1 as [|line l1 IH]; simpl; [reflexivity|].
  destruct (candidate (Py.strip line)); [|exact IH].
  destruct (urlparse (Py.strip line)); [reflexivity|exact IH].
Qed.

Lemma supported_lines_normalized_app l1 l2 :
  supported_lines_normalized (l1 ++ l2) =
  supported_lines_normalized l1 ++ supported_lines_normalized l2.
Proof.
  unfold supported_lines_normalized.
  by rewrite map_app, !List.filter_app, map_app.
Qed.

Lemma supported_lines_normalized_one line :
  supported_lines_normalized [line] =
  if candidate (Py.strip line) && supported (Py.strip line)
  then [normalize (Py.strip line)] else [].
Proof.
  unfold supported_lines_normalized.
  change (map Py.strip [line]) with [Py.strip line].
  generalize (Py.strip line) as url. intros url.
  cbn [List.filter].
  destruct (candidate url); cbn [List.filter andb map]; [|reflexivity].
  destruct (supported url); reflexivity.
Qed.

(** What one line adds, when [urlparse] accepts it. *)
Lemma read_line_spec line websites :
  read_line line websites =
  if candidate (Py.strip line) then
    match urlparse (Py.strip line) with
    | inl e => inl e
    | inr _ => inr (websites ++ supported_lines_normalized [line])
    end
  else inr websites.
Proof.
  rewrite supported_lines_normalized_one.
  unfold read_line.
  generalize (Py.strip line) as url. intros url.
  unfold candidate, supported, normalize, scheme_of.
  destruct (Py.truthy url); cbn [negb orb andb]; [|reflexivity].
  destruct (Py.startswith url "#"); cbn [negb orb andb]; [reflexivity|].
  destruct (urlparse url) as [e|parsed]; [reflexivity|].
  unfold Py.truthy.
  destruct (String.eqb_spec (scheme parsed) "") as [Heq|Hne].
  - rewrite Heq. reflexivity.
  - cbn [negb orb].
    destruct (Py.contains ["http"; "https"] (scheme parsed)).
    + cbn [negb]. destruct (scheme parsed); [congruence|reflexivity].
    + cbn [negb]. by rewrite app_nil_r.
Qed.

Lemma read_lines_spec lines websites :
  read_lines lines websites =
  match first_parse_error lines with
  | Some e => inl e
  | None => inr (websites ++ supported_lines_normalized lines)
  end.
Proof.
  revert websites.
  induction lines as [|line rest IH]; intros websites; simpl.
  - unfold supported_lines_normalized. simpl. by rewrite app_nil_r.
  - rewrite read_line_spec.
    destruct (candidate (Py.strip line)) eqn:Hc.
    + destruct (urlparse (Py.strip line)) as [e|parsed]; [reflexivity|].
      rewrite IH. destruct (first_parse_error rest); [reflexivity|].
      change (line :: rest) with ([line] ++ rest).
      by rewrite supported_lines_normalized_app, app_assoc.
    + rewrite IH. destruct (first_parse_error rest); [reflexivity|].
      unfold supported_lines_normalized. simpl. by rewrite Hc.
Qed.

Lemma skipped_line line :
  candidate (Py.strip line) = false -> supported_lines_normalized [line] = [].
Proof. intros Hc. unfold supported_lines_normalized. simpl. by rewrite Hc. Qed.

Lemma dropped_line line :
  supported (Py.strip line) = false -> supported_lines_normalized [line] = [].
Proof.
  intros Hs. unfold supported_lines_normalized. simpl.
  destruct (candidate (Py.strip line)); simpl; [by rewrite Hs|reflexivity].
Qed.

Lemma kept_line line :
  candidate (Py.strip line) = true -> supported (Py.strip line) = true ->
  supported_lines_normalized [line] = [normalize (Py.strip line)].
Proof.
  intros Hc Hs. unfold supported_lines_normalized. simpl.
  rewrite Hc. simpl. by rewrite Hs.
Qed.

End ReaderFacts.

Section ReaderClaims.
Context `{url_lib : UrlLib}.

Lemma contains_http_https s :
  Py.contains ["http"; "https"] s = true <-> s = "http" \/ s = "https".
Proof.
  unfold Py.contains. cbn [existsb].
  rewrite !orb_true_iff, !String.eqb_eq. intuition discriminate.
Qed.

(** Every returned URL on which [urlparse] finds a scheme has scheme [http]
    or [https], when [urlparse] finds the prefixed scheme. *)
Lemma supported_lines_schemes lines x s :
  default_scheme_recognised ->
  In x (supported_lines_normalized lines) ->
  scheme_of x = Some s -> s = "http" \/ s = "https".
Proof.
  intros Hrec Hin Hs. unfold supported_lines_normalized in Hin.
  apply in_map_iff in Hin as (u & <- & Hu).
  apply filter_In in Hu as [_ Hsup].
  unfold supported in Hsup. unfold normalize in Hs.
  destruct (scheme_of u) as [su|] eqn:Hu; [|discriminate].
  destruct (String.eqb_spec su "") as [->|Hne].
  - unfold scheme_of in Hs.
    destruct (urlparse (DEFAULT_SCHEME +:+ "://" +:+ u)) as [e|p] eqn:Hp;
      [discriminate|].
    apply Hrec in Hp. injection Hs as <-. right. exact Hp.
  - cbn [orb] in Hsup. apply contains_http_https in Hsup.
    destruct su; [congruence|]. rewrite Hu in Hs. by injection Hs as <-.
Qed.

(** C1 (as amended).  For a file that exists, [read_websites_from_file]
    returns exactly the stripped lines that are not blank, do not start with
    [#] and whose scheme is missing, [http] or [https], in file order, a
    missing scheme replaced by [https://]; blank lines, lines starting with
    [#] and lines with another scheme contribute nothing.  The one other
    way out is an error of [urlparse] on a line, which is raised. *)
Theorem read_websites_from_file_returns
    (texts : gmap string (list string)) (filename : string)
    (lines : list string) :
  texts !! filename = Some lines ->
  read_websites_from_file texts filename =
    match first_parse_error lines with
    | Some e => Raise e
    | None => Return (supported_lines_normalized lines)
    end
  /\ (forall l1 line l2,
        lines = l1 ++ line :: l2 ->
        candidate (Py.strip line) = false
        \/ supported (Py.strip line) = false ->
        supported_lines_normalized lines
        = supported_lines_normalized (l1 ++ l2)).
Proof.
  intros Hf. split.
  - unfold read_websites_from_file. rewrite Hf, read_lines_spec.
    destruct (first_parse_error lines); reflexivity.
  - intros l1 line l2 -> Hskip.
    change (line :: l2) with ([line] ++ l2).
    rewrite !supported_lines_normalized_app.
    destruct Hskip as [Hc|Hs].
    + by rewrite (skipped_line _ Hc).
    + by rewrite (dropped_line _ Hs).
Qed.

(** C2.  A line that reaches [urlparse] and has no scheme puts its stripped
    text, prefixed with [https://], into the result, exactly once: one
    entry, between what the lines before it and the lines after it
    contribute. *)
Theorem missing_scheme_defaults_to_https
    (texts : gmap string (list string)) (filename : string)
    (l1 l2 : list string) (line : string) :
  texts !! filename = Some (l1 ++ line :: l2) ->
  candidate (Py.strip line) = true ->
  scheme_of (Py.strip line) = Some "" ->
  first_parse_error (l1 ++ line :: l2) = None ->
  read_websites_from_file texts filename =
    Return (supported_lines_normalized l1
            ++ ["https://" +:+ Py.strip line]
            ++ supported_lines_normalized l2)
  /\ In ("https://" +:+ Py.strip line)
        (supported_lines_normalized (l1 ++ line :: l2)).
Proof.
  intros Hf Hc Hs Herr.
  assert (Hone : supported_lines_normalized [line]
                 = ["https://" +:+ Py.strip line]).
  { rewrite kept_line; [|exact Hc|by unfold supported; rewrite Hs].
    unfold normalize. by rewrite Hs. }
  assert (Hall : supported_lines_normalized (l1 ++ line :: l2)
                 = supported_lines_normalized l1
                   ++ ["https://" +:+ Py.strip line]
                   ++ supported_lines_normalized l2).
  { change (line :: l2) with ([line] ++ l2).
    by rewrite !supported_lines_normalized_app, Hone. }
  split.
  - unfold read_websites_from_file.
    rewrite Hf, read_lines_spec, Herr, Hall. reflexivity.
  - rewrite Hall. apply in_or_app. right. left. reflexivity.
Qed.

(** C3.  A line that reaches [urlparse] with a scheme other than [http]
    and [https] contributes nothing, and its URL is not in the returned list
    (given that [urlparse] finds the scheme of the URLs the reader prefixes);
    a line with scheme [http] or [https] contributes its stripped text,
    unchanged. *)
Theorem unsupported_scheme_dropped
    (texts : gmap string (list string)) (filename : string)
    (l1 l2 : list string) (line s : string) :
  texts !! filename = Some (l1 ++ line :: l2) ->
  candidate (Py.strip line) = true ->
  scheme_of (Py.strip line) = Some s ->
  s <> "" ->
  first_parse_error (l1 ++ line :: l2) = None ->
  (s <> "http" -> s <> "https" ->
   read_websites_from_file texts filename =
     Return (supported_lines_normalized l1 ++ supported_lines_normalized l2)
   /\ (default_scheme_recognised ->
       ~ In (Py.strip line)
            (supported_lines_normalized l1 ++ supported_lines_normalized l2)))
  /\ (s = "http" \/ s = "https" ->
      read_websites_from_file texts filename =
        Return (supported_lines_normalized l1
                ++ [Py.strip line]
                ++ supported_lines_normalized l2)).
Proof.
  intros Hf Hc Hs Hne Herr.
  assert (Hread : read_websites_from_file texts filename =
                  Return (supported_lines_normalized l1
                          ++ supported_lines_normalized [line]
                          ++ supported_lines_normalized l2)).
  { unfold read_websites_from_file.
    rewrite Hf, read_lines_spec, Herr.
    change (line :: l2) with ([line] ++ l2).
    by rewrite !supported_lines_normalized_app. }
  split.
  - intros H1 H2.
    assert (Hsup : supported (Py.strip line) = false).
    { unfold supported. rewrite Hs.
      destruct (String.eqb_spec s "") as [?|_]; [contradiction|].
      cbn [orb].
      destruct (Py.contains ["http"; "https"] s) eqn:Hk; [|reflexivity].
      apply contains_http_https in Hk as [?|?]; contradiction. }
    split.
    + rewrite Hread, (dropped_line _ Hsup). reflexivity.
    + intros Hrec Hin.
      rewrite <- supported_lines_normalized_app in Hin.
      destruct (supported_lines_schemes _ _ _ Hrec Hin Hs); contradiction.
  - intros Hk.
    assert (Hsup : supported (Py.strip line) = true).
    { unfold supported. rewrite Hs.
      apply orb_true_iff. right. by apply contains_http_https. }
    rewrite Hread, (kept_line _ Hc Hsup).
    unfold normalize. rewrite Hs.
    destruct s; [contradiction|reflexivity].
Qed.

End ReaderClaims.

(** ** The orchestration loop *)

Section LoopFacts.
Context `{url_lib : UrlLib} `{lib : ExtractEmails}.

(** The monad, one outcome at a time. *)
Lemma bind_Return {A B} (m : M A) (k : A -> M B) st a st' :
  m st = (Return a, st') -> bind m k st = k a st'.
Proof. intros Hm. unfold bind. by rewrite Hm. Qed.

Lemma bind_Raise {A B} (m : M A) (k : A -> M B) st e st' :
  m st = (Raise e, st') -> bind m k st = (Raise e, st').
Proof. intros Hm. unfold bind. by rewrite Hm. Qed.

Lemma try_except_Return {A} (m : M A) h st a st' :
  m st = (Return a, st') -> try_except m h st = (Return a, st').
Proof. intros Hm. unfold try_except. by rewrite Hm. Qed.

Lemma try_except_Raise {A} (m : M A) h st e st' :
  m st = (Raise e, st') -> try_except m h st = h e st'.
Proof. intros Hm. unfold try_except. by rewrite Hm. Qed.

(** A library call, then the rest. *)
Lemma bind_call {A B} (f : World -> (PyExc + A) * World) ev
    (k : A -> M B) st :
  bind (call f ev) k st =
  match f (world st) with
  | (inl e, w) =>
      (Raise e,
       {| texts := texts st; csvs := csvs st; world := w;
          events := events st ++ [ev (inl e)] |})
  | (inr a, w) =>
      k a {| texts := texts st; csvs := csvs st; world := w;
             events := events st ++ [ev (inr a)] |}
  end.
Proof. unfold bind, call. by destruct (f (world st)) as [[e|a] w]. Qed.

(** A [save], then the rest. *)
Lemma bind_save {B} sv data (k : unit -> M B) st :
  bind (save sv data) k st =
  match save_error sv data (world st) with
  | (Some e, w) =>
      (Raise e,
       {| texts := texts st; csvs := csvs st; world := w;
          events := events st ++ [ESave sv data (Some e)] |})
  | (None, w) =>
      k tt {| texts := texts st;
              csvs := <[output_path sv :=
                          write_rows (save_mode sv)
                            (default [] (csvs st !! output_path sv))
                            (map (csv_row (headers sv)) data)]> (csvs st);
              world := w;
              events := events st ++ [ESave sv data None] |}
  end.
Proof. unfold bind, save. by destruct (save_error _ _ _) as [[e|] w]. Qed.

(** The two branches of [if raw_data] save [records_to_save]. *)
Lemma save_branches sv website (raw_data : list PageData) :
  match raw_data with
  | _ :: _ => (save sv (map Obj raw_data) ;;; ret true)%script
  | [] =>
      let placeholder_data := [Dict (placeholder website)] in
      (save sv placeholder_data ;;; ret true)%script
  end
  = (save sv (records_to_save website raw_data) ;;; ret true)%script.
Proof. destruct raw_data; reflexivity. Qed.

(** Closes the bookkeeping of a run: the new events and the text files. *)
Ltac close_run :=
  cbn [fst snd world events texts csvs];
  eexists; split;
  [ rewrite <- ?app_assoc; reflexivity
  | split; [reflexivity|] ].

(** The [try] block: its calls, and what it leaves in the CSV files. *)
Lemma try_body_run b sv website st :
  exists tail,
    events (try_body b sv website st).2 = events st ++ tail
    /\ texts (try_body b sv website st).2 = texts st
    /\ match (try_body b sv website st).1 with
       | Return flag =>
           flag = true
           /\ try_events b sv website None tail
           /\ exists raw_data,
                saved_rows sv st (try_body b sv website st).2
                  (records_to_save website raw_data)
       | Raise e =>
           try_events b sv website (Some e) tail
           /\ csvs (try_body b sv website st).2 = csvs st
       | SysExit _ => False
       end.
Proof.
  unfold try_body, Factory_, DefaultWorker_, get_data_.
  rewrite bind_call.
  destruct (new_Factory website b CRAWL_DEPTH MAX_LINKS_PER_PAGE (world st))
    as [[e|f] w1].
  { close_run. split; [constructor|reflexivity]. }
  rewrite bind_call. cbn [world].
  destruct (new_DefaultWorker f w1) as [[e|wk] w2].
  { close_run. split; [constructor|reflexivity]. }
  rewrite bind_call. cbn [world].
  destruct (get_data wk w2) as [[e|raw_data] w3].
  { close_run. split; [constructor|reflexivity]. }
  rewrite save_branches, bind_save. cbn [world].
  destruct (save_error sv (records_to_save website raw_data) w3)
    as [[e|] w4].
  - close_run. split; [constructor|reflexivity].
  - unfold ret. close_run. split; [reflexivity|]. split; [constructor|].
    exists raw_data. reflexivity.
Qed.

(** The [except] clause: one [save] of the error record, never an
    exception. *)
Lemma except_body_eq sv website e st :
  except_body sv website e st =
  match save_error sv [Dict (error_placeholder website e)] (world st) with
  | (Some e', w) =>
      (Return false,
       {| texts := texts st; csvs := csvs st; world := w;
          events := events st
            ++ [ESave sv [Dict (error_placeholder website e)] (Some e')] |})
  | (None, w) =>
      (Return true,
       {| texts := texts st;
          csvs := <[output_path sv :=
                      write_rows (save_mode sv)
                        (default [] (csvs st !! output_path sv))
                        [csv_row (headers sv)
                           (Dict (error_placeholder website e))]]> (csvs st);
          world := w;
          events := events st
            ++ [ESave sv [Dict (error_placeholder website e)] None] |})
  end.
Proof.
  unfold except_body, try_except. cbn zeta. rewrite bind_save.
  by destruct (save_error _ _ _) as [[e'|] w].
Qed.

(** One iteration: it returns, whatever the library does. *)
Lemma process_website_run b sv website st :
  exists flag st' tail,
    process_website b sv website st = (Return flag, st')
    /\ events st' = events st ++ tail
    /\ texts st' = texts st
    /\ iteration_events b sv website tail
    /\ (csvs st' = csvs st \/ exists data, saved_rows sv st st' data).
Proof.
  destruct (try_body_run b sv website st) as (tail & Hev & Htx & Hout).
  unfold process_website.
  destruct (try_body b sv website st) as [[flag|e|s] st1] eqn:Htry;
    cbn [fst snd] in *; [| |contradiction].
  - destruct Hout as (_ & Htail & raw_data & Hrows).
    rewrite (try_except_Return _ _ _ _ _ Htry).
    exists flag, st1, tail. repeat split; try assumption.
    + by constructor.
    + right. by exists (records_to_save website raw_data).
  - destruct Hout as [Htail Hcsv].
    rewrite (try_except_Raise _ _ _ _ _ Htry), except_body_eq.
    destruct (save_error sv [Dict (error_placeholder website e)] (world st1))
      as [[e'|] w].
    + eexists _, _, _. split; [reflexivity|]. cbn [events texts csvs].
      split; [by rewrite Hev, <- app_assoc|].
      split; [assumption|]. split; [by constructor|]. by left.
    + eexists _, _, _. split; [reflexivity|]. cbn [events texts csvs].
      split; [by rewrite Hev, <- app_assoc|].
      split; [assumption|]. split; [by constructor|].
      right. exists [Dict (error_placeholder website e)].
      unfold saved_rows. cbn [csvs]. by rewrite Hcsv.
Qed.

(** The loop: it reaches the end of the list, one iteration per website. *)
Lemma crawl_run b sv websites st :
  exists st' per_site,
    crawl b sv websites st = (Return tt, st')
    /\ events st' = events st ++ concat per_site
    /\ texts st' = texts st
    /\ Forall2 (iteration_events b sv) websites per_site.
Proof.
  revert st. induction websites as [|website rest IH]; intros st.
  - exists st, []. cbn. rewrite app_nil_r. repeat split. constructor.
  - destruct (process_website_run b sv website st)
      as (flag & st1 & tail & Hrun & Hev & Htx & Hit & _).
    destruct (IH st1) as (st' & per_site & Hrest & Hev' & Htx' & Hall).
    exists st', (tail :: per_site). cbn [crawl concat].
    rewrite (bind_Return _ _ _ _ _ Hrun), Hrest.
    split; [reflexivity|].
    split; [by rewrite Hev', Hev, <- app_assoc|].
    split; [congruence|]. by constructor.
Qed.

Lemma factory_calls_app evs1 evs2 :
  factory_calls (evs1 ++ evs2) = factory_calls evs1 ++ factory_calls evs2.
Proof. apply flat_map_app. Qed.

Lemma save_calls_app evs1 evs2 :
  save_calls (evs1 ++ evs2) = save_calls evs1 ++ save_calls evs2.
Proof. apply flat_map_app. Qed.

(** What the calls of one iteration are, by kind. *)
Lemma iteration_factory_calls b sv website tail :
  iteration_events b sv website tail ->
  factory_calls tail = [(website, b, 10%Z, 1%Z)].
Proof.
  intros [evs Htry|e evs r Htry]; [|rewrite factory_calls_app];
    inversion Htry; reflexivity.
Qed.

Lemma iteration_save_calls b sv website tail :
  iteration_events b sv website tail ->
  Forall (fun saver => saver = sv) (save_calls tail).
Proof.
  intros [evs Htry|e evs r Htry]; [|rewrite save_calls_app];
    inversion Htry; cbn; repeat constructor.
Qed.

Lemma site_factory_calls b sv websites per_site :
  Forall2 (iteration_events b sv) websites per_site ->
  factory_calls (concat per_site)
  = map (fun website => (website, b, 10%Z, 1%Z)) websites.
Proof.
  induction 1 as [|website tail websites per_site Hit _ IH]; [reflexivity|].
  cbn [concat map].
  by rewrite factory_calls_app, IH, (iteration_factory_calls _ _ _ _ Hit).
Qed.

Lemma site_save_calls b sv websites per_site :
  Forall2 (iteration_events b sv) websites per_site ->
  Forall (fun saver => saver = sv) (save_calls (concat per_site)).
Proof.
  induction 1 as [|website tail websites per_site Hit _ IH];
    [constructor|].
  cbn [concat]. rewrite save_calls_app.
  apply Forall_app. split; [|exact IH].
  exact (iteration_save_calls _ _ _ _ Hit).
Qed.

(** When the [try] block raises, the [except] clause takes over, from
    CSV files that are as they were. *)
Lemma process_website_handled b sv website st e st1 :
  try_body b sv website st = (Raise e, st1) ->
  csvs st1 = csvs st
  /\ texts st1 = texts st
  /\ process_website b sv website st = except_body sv website e st1.
Proof.
  intros Htry.
  destruct (try_body_run b sv website st) as (tail & _ & Htx & Hout).
  rewrite Htry in Htx, Hout. cbn [fst snd] in *.
  destruct Hout as [_ Hcsv]. repeat split; try assumption.
  unfold process_website. exact (try_except_Raise _ _ _ _ _ Htry).
Qed.

(** *** Appending to [output.csv] *)

Lemma appended_refl st : appended st st [].
Proof. split; [reflexivity|by rewrite app_nil_r]. Qed.

Lemma appended_trans st1 st2 st3 rows1 rows2 :
  appended st1 st2 rows1 -> appended st2 st3 rows2 ->
  appended st1 st3 (rows1 ++ rows2).
Proof.
  intros [Ho1 Hr1] [Ho2 Hr2]. split.
  - intros p Hp. by rewrite (Ho2 p Hp), (Ho1 p Hp).
  - by rewrite Hr2, Hr1, app_assoc.
Qed.

Lemma appended_same_csvs st st' :
  csvs st' = csvs st -> appended st st' [].
Proof.
  intros Hc. split; [by rewrite Hc|].
  unfold output_rows. by rewrite Hc, app_nil_r.
Qed.

(** A write through the configured saver appends the rows of the data. *)
Lemma saved_rows_appended st st' data :
  saved_rows the_data_saver st st' data ->
  appended st st' (map (csv_row ["page"; "email"; "website"]) data).
Proof.
  unfold saved_rows. cbn [the_data_saver output_path save_mode headers].
  change (write_rows "a") with (fun old new : list (list string) => old ++ new).
  cbn beta. intros Hc. split.
  - intros p Hp. rewrite Hc. apply lookup_insert_ne. by intros <-.
  - unfold output_rows. rewrite Hc. change OUTPUT_FILE with "output.csv".
    by rewrite lookup_insert_eq.
Qed.

(** The mode matters: a saver opened in mode ['w'] would keep nothing of
    what the file held. *)
Lemma write_mode_starts_over (old new : list (list string)) :
  write_rows "w" old new = new /\ write_rows "a" old new = old ++ new.
Proof. split; reflexivity. Qed.

(** *** Tracking what is written *)

Lemma rows_saved_app evs1 evs2 :
  rows_saved (evs1 ++ evs2) = rows_saved evs1 ++ rows_saved evs2.
Proof. apply flat_map_app. Qed.

Lemma tracks_refl st : tracks st st.
Proof.
  exists []. split; [by rewrite app_nil_r|].
  split; [constructor|apply appended_refl].
Qed.

Lemma tracks_trans st1 st2 st3 :
  tracks st1 st2 -> tracks st2 st3 -> tracks st1 st3.
Proof.
  intros (new1 & Hev1 & Hs1 & Ha1) (new2 & Hev2 & Hs2 & Ha2).
  exists (new1 ++ new2). split; [by rewrite Hev2, Hev1, <- app_assoc|].
  split; [rewrite save_calls_app; by apply Forall_app|].
  rewrite rows_saved_app. exact (appended_trans _ _ _ _ _ Ha1 Ha2).
Qed.

Lemma tracking_ret {A} (a : A) : tracking (ret a).
Proof. intros st. apply tracks_refl. Qed.

Lemma tracking_bind {A B} (m : M A) (k : A -> M B) :
  tracking m -> (forall a, tracking (k a)) -> tracking (bind m k).
Proof.
  intros Hm Hk st. specialize (Hm st). unfold bind.
  destruct (m st) as [[a|e|s] st1]; cbn [snd] in *; try exact Hm.
  exact (tracks_trans _ _ _ Hm (Hk a st1)).
Qed.

Lemma tracking_try_except {A} (m : M A) (h : PyExc -> M A) :
  tracking m -> (forall e, tracking (h e)) -> tracking (try_except m h).
Proof.
  intros Hm Hh st. specialize (Hm st). unfold try_except.
  destruct (m st) as [[a|e|s] st1]; cbn [snd] in *; try exact Hm.
  exact (tracks_trans _ _ _ Hm (Hh e st1)).
Qed.

(** A library call that is not a [save] writes nothing. *)
Lemma tracking_call {A} (f : World -> (PyExc + A) * World)
    (ev : (PyExc + A) -> Event) :
  (forall r, save_calls [ev r] = [] /\ rows_saved [ev r] = []) ->
  tracking (call f ev).
Proof.
  intros Hev st. unfold call.
  destruct (f (world st)) as [r w]. cbn [snd].
  destruct (Hev r) as [Hs Hr].
  exists [ev r]. cbn [events]. split; [reflexivity|].
  rewrite Hs, Hr. split; [constructor|by apply appended_same_csvs].
Qed.

(** A [save] through the configured saver appends the rows of its records
    when it succeeds and writes nothing when it raises. *)
Lemma save_tracks data st :
  exists r,
    events (save the_data_saver data st).2
    = events st ++ [ESave the_data_saver data r]
    /\ appended st (save the_data_saver data st).2
         (match r with
          | None => map page_email_website_row data
          | Some _ => []
          end).
Proof.
  unfold save.
  destruct (save_error the_data_saver data (world st)) as [[e|] w];
    eexists; (split; [reflexivity|]); cbn [snd].
  - by apply appended_same_csvs.
  - by apply saved_rows_appended.
Qed.

Lemma tracking_save data : tracking (save the_data_saver data).
Proof.
  intros st. destruct (save_tracks data st) as (r & Hev & Happ).
  exists [ESave the_data_saver data r]. split; [exact Hev|].
  split; [by repeat constructor|].
  cbn [rows_saved flat_map]. rewrite app_nil_r. by destruct r.
Qed.

Lemma tracking_process_website b website :
  tracking (process_website b the_data_saver website).
Proof.
  unfold process_website. apply tracking_try_except.
  - unfold try_body, Factory_, DefaultWorker_, get_data_.
    apply tracking_bind; [by apply tracking_call|]. intros f.
    apply tracking_bind; [by apply tracking_call|]. intros wk.
    apply tracking_bind; [by apply tracking_call|]. intros raw_data.
    destruct raw_data; cbn zeta;
      (apply tracking_bind; [apply tracking_save|]);
      intros _; apply tracking_ret.
  - intros e. unfold except_body. cbn zeta. apply tracking_try_except.
    + apply tracking_bind; [apply tracking_save|].
      intros _. apply tracking_ret.
    + intros _. apply tracking_ret.
Qed.

Lemma tracking_crawl b websites : tracking (crawl b the_data_saver websites).
Proof.
  induction websites as [|website rest IH]; [apply tracking_ret|].
  cbn [crawl]. apply tracking_bind; [apply tracking_process_website|].
  intros _. exact IH.
Qed.

Lemma tracking_main : tracking main.
Proof.
  unfold main. apply tracking_bind; [intros st; apply tracks_refl|].
  intros [|website rest]; [intros st; apply tracks_refl|].
  apply tracking_bind; [by apply tracking_call|]. intros b st.
  unfold bind at 1. unfold CsvSaver_. cbn beta iota zeta.
  eapply tracks_trans; [|apply tracking_crawl].
  exists [ECsvSaver the_data_saver]. cbn [events].
  split; [reflexivity|].
  split; [constructor|by apply appended_same_csvs].
Qed.

(** *** The module body *)

Lemma main_eq st :
  main st =
  match read_websites_from_file (texts st) INPUT_FILE with
  | Return [] => (SysExit 0, st)
  | Return (website :: rest) =>
      match new_Browser (world st) with
      | (inl e, w) =>
          (Raise e,
           {| texts := texts st; csvs := csvs st; world := w;
              events := events st ++ [EBrowser (inl e)] |})
      | (inr b, w) =>
          crawl b the_data_saver (website :: rest)
            {| texts := texts st; csvs := csvs st; world := w;
               events := (events st ++ [EBrowser (inr b)])
                         ++ [ECsvSaver the_data_saver] |}
      end
  | Raise e => (Raise e, st)
  | SysExit s => (SysExit s, st)
  end.
Proof.
  unfold main. unfold bind at 1.
  destruct (read_websites_from_file (texts st) INPUT_FILE)
    as [[|website rest]|e|s]; try reflexivity.
  unfold Browser_. rewrite bind_call.
  by destruct (new_Browser (world st)) as [[e|b] w].
Qed.

End LoopFacts.

(** ** Slices *)

Lemma slice_to_length n s :
  String.length (Py.slice_to n s) = Nat.min n (String.length s).
Proof.
  unfold Py.slice_to. revert s.
  induction n as [|n IH]; intros [|c s]; cbn; try reflexivity.
  by rewrite IH.
Qed.

Lemma slice_to_prefix n s : String.prefix (Py.slice_to n s) s = true.
Proof.
  unfold Py.slice_to. revert s.
  induction n as [|n IH]; intros [|c s]; cbn; try reflexivity.
  rewrite IH. by destruct (Ascii.ascii_dec c c).
Qed.

Lemma slice_to_short n s :
  (String.length s <= n)%nat -> Py.slice_to n s = s.
Proof.
  unfold Py.slice_to. revert s.
  induction n as [|n IH]; intros [|c s]; cbn; try reflexivity; [lia|].
  intros Hlen. rewrite IH; [reflexivity|lia].
Qed.

(** ** The claims on the loop *)

Section LoopClaims.
Context `{url_lib : UrlLib} `{lib : ExtractEmails}.

(** The cells of the two rows that the script builds itself. *)
Lemma placeholder_row website :
  csv_row ["page"; "email"; "website"] (Dict (placeholder website))
  = [website; ""; website].
Proof. reflexivity. Qed.

Lemma error_placeholder_row website e :
  csv_row ["page"; "email"; "website"] (Dict (error_placeholder website e))
  = ["ERROR_DURING_PROCESSING";
     Py.slice_to 200 ("ERROR: " +:+ exc_type e +:+ ": " +:+ exc_msg e);
     website].
Proof. reflexivity. Qed.

(** The rows of what the [try] block saves. *)
Lemma records_rows website (raw_data : list PageData) :
  map (csv_row ["page"; "email"; "website"])
    (records_to_save website raw_data)
  = match raw_data with
    | [] => [[website; ""; website]]
    | _ :: _ =>
        map (fun p => [default "" (getattr p "page");
                       default "" (getattr p "email");
                       default "" (getattr p "website")]) raw_data
    end.
Proof.
  destruct raw_data as [|p raw_data]; [reflexivity|].
  cbn [records_to_save]. by rewrite map_map.
Qed.

(** C4.  Once the list is read and the browser built, the loop handles
    every URL of the list, in list order: the [Factory] calls of the run are
    exactly one per URL, in order, each with that URL, the browser, depth 10
    and max_links_from_page 1; in each iteration the worker is built from
    the factory that call returned and [get_data] is called on that
    worker ([iteration_events]). *)
Theorem orchestrator_calls (st : State) (websites : list string)
    (b : Browser) (w : World) :
  read_websites_from_file (texts st) INPUT_FILE = Return websites ->
  websites <> [] ->
  new_Browser (world st) = (inr b, w) ->
  exists st' per_site,
    main st = (Return tt, st')
    /\ events st' =
         events st ++ [EBrowser (inr b); ECsvSaver the_data_saver]
         ++ concat per_site
    /\ Forall2 (iteration_events b the_data_saver) websites per_site
    /\ factory_calls (concat per_site)
       = map (fun website => (website, b, 10%Z, 1%Z)) websites.
Proof.
  intros Hread Hne Hb. rewrite main_eq, Hread, Hb.
  destruct websites as [|website rest]; [contradiction|].
  destruct (crawl_run b the_data_saver (website :: rest)
              {| texts := texts st; csvs := csvs st; world := w;
                 events := (events st ++ [EBrowser (inr b)])
                           ++ [ECsvSaver the_data_saver] |})
    as (st' & per_site & Hrun & Hev & _ & Hall).
  exists st', per_site. split; [exact Hrun|].
  split; [|split; [exact Hall|exact (site_factory_calls _ _ _ _ Hall)]].
  rewrite Hev. cbn [events]. by rewrite <- !app_assoc.
Qed.

(** C5 (as amended).  When [get_data] succeeds, the [try] block hands to
    the saver, in one [save], one placeholder record (page = the URL,
    email = the empty string, website = the URL) for an empty result, and
    the returned records, without placeholder, for a non-empty one.  When
    that [save] succeeds the iteration is over and [output.csv] has grown by
    exactly the rows of those records; when it raises, nothing was written
    and the exception goes to the [except] clause. *)
Theorem placeholder_or_records_saved (b : Browser) (website : string)
    (st : State) (f : Factory) (wk : Worker) (raw_data : list PageData)
    (w1 w2 w3 : World) :
  new_Factory website b 10 1 (world st) = (inr f, w1) ->
  new_DefaultWorker f w1 = (inr wk, w2) ->
  get_data wk w2 = (inr raw_data, w3) ->
  exists r st1,
    r = (save_error the_data_saver
           (match raw_data with
            | [] => [Dict (placeholder website)]
            | _ :: _ => map Obj raw_data
            end) w3).1
    /\ events st1 =
         events st
         ++ [EFactory website b 10 1 (inr f);
             EDefaultWorker f (inr wk);
             EGetData wk (inr raw_data);
             ESave the_data_saver
               (match raw_data with
                | [] => [Dict (placeholder website)]
                | _ :: _ => map Obj raw_data
                end) r]
    /\ match r with
       | None =>
           process_website b the_data_saver website st = (Return true, st1)
           /\ appended st st1
                (match raw_data with
                 | [] => [[website; ""; website]]
                 | _ :: _ =>
                     map (fun p => [default "" (getattr p "page");
                                    default "" (getattr p "email");
                                    default "" (getattr p "website")])
                       raw_data
                 end)
       | Some e =>
           try_body b the_data_saver website st = (Raise e, st1)
           /\ csvs st1 = csvs st
       end.
Proof.
  intros HF HW HG.
  change (match raw_data with
          | [] => [Dict (placeholder website)]
          | _ :: _ => map Obj raw_data
          end) with (records_to_save website raw_data) in *.
  assert (Htry :
    try_body b the_data_saver website st =
    bind (save the_data_saver (records_to_save website raw_data))
         (fun _ => ret true)
      {| texts := texts st; csvs := csvs st; world := w3;
         events := events st
                   ++ [EFactory website b 10 1 (inr f);
                       EDefaultWorker f (inr wk);
                       EGetData wk (inr raw_data)] |}).
  { unfold try_body, Factory_, DefaultWorker_, get_data_.
    rewrite bind_call.
    change CRAWL_DEPTH with 10%Z. change MAX_LINKS_PER_PAGE with 1%Z.
    rewrite HF, bind_call. cbn [world]. rewrite HW, bind_call. cbn [world].
    rewrite HG, save_branches. cbn [events texts csvs].
    by rewrite <- ?app_assoc. }
  rewrite bind_save in Htry. cbn [world texts csvs events] in Htry.
  destruct (save_error the_data_saver (records_to_save website raw_data) w3)
    as [[e|] w4].
  - eexists _, _. split; [reflexivity|]. cbn [fst].
    split; [|split; [exact Htry|reflexivity]].
    cbn [events]. rewrite <- ?app_assoc. reflexivity.
  - unfold ret in Htry. eexists _, _. split; [reflexivity|]. cbn [fst].
    split; [|split].
    2: { unfold process_website. exact (try_except_Return _ _ _ _ _ Htry). }
    + cbn [events]. rewrite <- ?app_assoc. reflexivity.
    + assert (Hrows : saved_rows the_data_saver st
                {| texts := texts st;
                   csvs := <[output_path the_data_saver :=
                      write_rows (save_mode the_data_saver)
                        (default [] (csvs st !! output_path the_data_saver))
                        (map (csv_row (headers the_data_saver))
                           (records_to_save website raw_data))]> (csvs st);
                   world := w4;
                   events := (events st
                              ++ [EFactory website b 10 1 (inr f);
                                  EDefaultWorker f (inr wk);
                                  EGetData wk (inr raw_data)])
                             ++ [ESave the_data_saver
                                   (records_to_save website raw_data) None]
                |} (records_to_save website raw_data)) by reflexivity.
      apply saved_rows_appended in Hrows as Happ.
      rewrite <- records_rows. exact Happ.
Qed.

(** C6 (as amended).  When the [try] block of a website raises [e], the
    iteration hands one error record to the saver, page =
    ['ERROR_DURING_PROCESSING'], email = the text of [e], website = the URL.
    If that [save] succeeds the record is the one row appended to
    [output.csv]; if it raises, nothing is appended.  Either way the
    iteration returns and the loop goes on with the next website. *)
Theorem error_record_saved (b : Browser) (website : string)
    (st st1 : State) (e : PyExc) :
  try_body b the_data_saver website st = (Raise e, st1) ->
  exists flag st' r,
    process_website b the_data_saver website st = (Return flag, st')
    /\ r = (save_error the_data_saver [Dict (error_placeholder website e)]
                       (world st1)).1
    /\ events st' =
         events st1
         ++ [ESave the_data_saver [Dict (error_placeholder website e)] r]
    /\ match r with
       | None =>
           flag = true
           /\ appended st st'
                [["ERROR_DURING_PROCESSING";
                  Py.slice_to 200
                    ("ERROR: " +:+ exc_type e +:+ ": " +:+ exc_msg e);
                  website]]
       | Some _ => flag = false /\ csvs st' = csvs st
       end
    /\ forall rest,
         crawl b the_data_saver (website :: rest) st
         = crawl b the_data_saver rest st'.
Proof.
  intros Htry.
  destruct (process_website_handled _ _ _ _ _ _ Htry) as (Hcsv & _ & Hrun).
  rewrite except_body_eq in Hrun.
  destruct (save_error the_data_saver [Dict (error_placeholder website e)]
                       (world st1)) as [[e'|] w] eqn:Hs.
  - eexists _, _, _. split; [exact Hrun|]. cbn [fst events csvs].
    repeat split; try done.
    intros rest. cbn [crawl]. by rewrite (bind_Return _ _ _ _ _ Hrun).
  - eexists _, _, _. split; [exact Hrun|]. cbn [fst events].
    split; [reflexivity|]. split; [reflexivity|]. split.
    + split; [reflexivity|].
      rewrite <- error_placeholder_row.
      apply (saved_rows_appended _ _ [Dict (error_placeholder website e)]).
      unfold saved_rows. cbn [csvs]. by rewrite Hcsv.
    + intros rest. cbn [crawl]. by rewrite (bind_Return _ _ _ _ _ Hrun).
Qed.

(** C7.  The saver of the run is opened in mode ['a'] on [output.csv] with
    the headers page, email, website, and every [save] of the run goes
    through it.  Every [save] through it is an append: what [output.csv]
    holds before the call, be it from before the run or from earlier in the
    run, is still there, unchanged and in front, after it, and the other
    files are untouched.  What a [save] that succeeds adds is one row per
    record, the page of the record first, its email second, its website
    third ([page_email_website_row]); a [save] that raises adds nothing.
    So over the whole run [output.csv] is what it held before, followed by
    exactly those rows of the saved records, in the order of the calls
    ([rows_saved]). *)
Theorem output_is_append_only :
  save_mode the_data_saver = "a"
  /\ output_path the_data_saver = OUTPUT_FILE
  /\ headers the_data_saver = CSV_HEADERS
  /\ (forall data st,
        exists r,
          events (save the_data_saver data st).2
          = events st ++ [ESave the_data_saver data r]
          /\ appended st (save the_data_saver data st).2
               (match r with
                | None =>
                    map (fun it => [default "" (field it "page");
                                    default "" (field it "email");
                                    default "" (field it "website")]) data
                | Some _ => []
                end))
  /\ (forall st,
        exists new,
          events (main st).2 = events st ++ new
          /\ Forall (fun saver => saver = the_data_saver) (save_calls new)
          /\ appended st (main st).2 (rows_saved new)).
Proof.
  do 3 (split; [reflexivity|]). split.
  - intros data st. exact (save_tracks data st).
  - intros st. exact (tracking_main st).
Qed.

(** C8.  When the input file does not exist the run ends with
    [sys.exit(1)], and when it exists but gives no website the run ends with
    [sys.exit(0)]; in both cases the state is as at the start: no browser,
    no saver, no call into the library, and [output.csv] untouched. *)
Theorem early_exits (st : State) :
  (texts st !! INPUT_FILE = None -> main st = (SysExit 1, st))
  /\ (forall lines,
        texts st !! INPUT_FILE = Some lines ->
        first_parse_error lines = None ->
        supported_lines_normalized lines = [] ->
        main st = (SysExit 0, st)).
Proof.
  split.
  - intros Hf. rewrite main_eq. unfold read_websites_from_file.
    by rewrite Hf.
  - intros lines Hf Herr Hnone. rewrite main_eq.
    unfold read_websites_from_file.
    by rewrite Hf, read_lines_spec, Herr, Hnone.
Qed.

(** C9.  The email field of an error record is ['ERROR: '], the name of the
    exception type, [': '] and the message of the exception, cut to its
    first 200 characters; and the error record that an iteration saves after
    its [try] block raised [e] is the one built from [e]. *)
Theorem error_email_text (website : string) (e : PyExc) :
  error_placeholder website e !! "email"
  = Some (Py.slice_to 200
            ("ERROR: " +:+ exc_type e +:+ ": " +:+ exc_msg e))
  /\ String.length
       (Py.slice_to 200 ("ERROR: " +:+ exc_type e +:+ ": " +:+ exc_msg e))
     = Nat.min 200
         (String.length ("ERROR: " +:+ exc_type e +:+ ": " +:+ exc_msg e))
  /\ String.prefix
       (Py.slice_to 200 ("ERROR: " +:+ exc_type e +:+ ": " +:+ exc_msg e))
       ("ERROR: " +:+ exc_type e +:+ ": " +:+ exc_msg e) = true
  /\ (forall b sv st st1,
        try_body b sv website st = (Raise e, st1) ->
        exists r,
          events (process_website b sv website st).2
          = events st1 ++ [ESave sv [Dict (error_placeholder website e)] r]).
Proof.
  split; [|split; [apply slice_to_length|split; [apply slice_to_prefix|]]].
  - unfold error_placeholder.
    rewrite lookup_insert_ne by discriminate. apply lookup_insert_eq.
  - intros b sv st st1 Htry.
    destruct (process_website_handled _ _ _ _ _ _ Htry) as (_ & _ & ->).
    rewrite except_body_eq.
    destruct (save_error sv [Dict (error_placeholder website e)] (world st1))
      as [[e'|] w]; eexists; reflexivity.
Qed.

(** C10.  An iteration of the loop never raises and never exits: it
    returns.  When the [try] block raised and the [save] of the error record
    raises too, that is caught as well, and the CSV files are as before the
    iteration.  So the loop returns for every list of websites, having run
    one iteration per website, in order. *)
Theorem loop_never_raises (b : Browser) (sv : CsvSaver) :
  (forall website st,
     exists flag st', process_website b sv website st = (Return flag, st'))
  /\ (forall website st e st1 e' w,
        try_body b sv website st = (Raise e, st1) ->
        save_error sv [Dict (error_placeholder website e)] (world st1)
        = (Some e', w) ->
        exists st',
          process_website b sv website st = (Return false, st')
          /\ csvs st' = csvs st)
  /\ (forall website rest st,
        crawl b sv (website :: rest) st
        = crawl b sv rest (process_website b sv website st).2)
  /\ (forall websites st,
        exists st' per_site,
          crawl b sv websites st = (Return tt, st')
          /\ events st' = events st ++ concat per_site
          /\ Forall2 (iteration_events b sv) websites per_site).
Proof.
  split; [|split; [|split]].
  - intros website st.
    destruct (process_website_run b sv website st)
      as (flag & st' & _ & Hrun & _).
    by exists flag, st'.
  - intros website st e st1 e' w Htry Hs.
    destruct (process_website_handled _ _ _ _ _ _ Htry) as (Hcsv & _ & ->).
    rewrite except_body_eq, Hs. eexists. split; [reflexivity|exact Hcsv].
  - intros website rest st.
    destruct (process_website_run b sv website st)
      as (flag & st' & _ & Hrun & _).
    cbn [crawl]. by rewrite (bind_Return _ _ _ _ _ Hrun), Hrun.
  - intros websites st.
    destruct (crawl_run b sv websites st)
      as (st' & per_site & Hrun & Hev & _ & Hall).
    by exists st', per_site.
Qed.

End LoopClaims.

(** ** Concrete runs *)

(** The instance of [urllib.parse] finds the scheme the reader prefixes. *)
Lemma cpython_default_scheme_recognised : default_scheme_recognised.
Proof.
  intros u parsed. unfold urlparse, cpython_urllib, Urllib.urlsplit.
  change (Urllib.remove_unsafe
            (Urllib.lstrip_c0 (DEFAULT_SCHEME +:+ "://" +:+ u)))
    with ("https://" +:+ Urllib.remove_unsafe u).
  generalize (Urllib.remove_unsafe u) as r. intros r.
  change (Urllib.split_scheme ("https://" +:+ r))
    with ("https", "//" +:+ r).
  cbn iota beta.
  destruct (_ || _); [discriminate|].
  intros [= <-]. reflexivity.
Qed.

Local Existing Instance Demo.library.

(** C1, on [Demo.websites_txt]: three of its six lines are returned. *)
Lemma read_websites_from_file_returns_witness :
  ({[INPUT_FILE := Demo.websites_txt]} : gmap string (list string))
    !! INPUT_FILE = Some Demo.websites_txt
  /\ read_websites_from_file {[INPUT_FILE := Demo.websites_txt]} INPUT_FILE
     = Return ["https://shop.example"; "http://a.example/x";
               "https://b.example"].
Proof.
  split; [reflexivity|].
  destruct (read_websites_from_file_returns
              {[INPUT_FILE := Demo.websites_txt]} INPUT_FILE
              Demo.websites_txt) as [Hread _]; [reflexivity|].
  rewrite Hread. vm_compute. reflexivity.
Defined.

(** C1 as stated fails: the one line of this file is neither blank nor a
    comment, and nothing is returned for it. *)
Lemma ftp_line_is_not_returned :
  read_websites_from_file
    {[INPUT_FILE := ["ftp://files.example" +:+ LF]]} INPUT_FILE
  = Return []
  /\ non_comment_lines_normalized ["ftp://files.example" +:+ LF]
     = ["ftp://files.example"]
  /\ read_websites_from_file
       {[INPUT_FILE := ["ftp://files.example" +:+ LF]]} INPUT_FILE
     <> Return (non_comment_lines_normalized ["ftp://files.example" +:+ LF]).
Proof.
  split; [vm_compute; reflexivity|].
  split; [vm_compute; reflexivity|].
  vm_compute. discriminate.
Qed.

(** C2, on the third line of [Demo.websites_txt]. *)
Lemma missing_scheme_defaults_to_https_witness :
  candidate (Py.strip ("shop.example" +:+ LF)) = true
  /\ scheme_of (Py.strip ("shop.example" +:+ LF)) = Some ""
  /\ read_websites_from_file {[INPUT_FILE := Demo.websites_txt]} INPUT_FILE
     = Return ([] ++ ["https://shop.example"]
               ++ ["http://a.example/x"; "https://b.example"]).
Proof.
  split; [reflexivity|]. split; [reflexivity|].
  destruct (missing_scheme_defaults_to_https
              {[INPUT_FILE := Demo.websites_txt]} INPUT_FILE
              ["# shops" +:+ LF; LF]
              ["  http://a.example/x  " +:+ LF; "ftp://files.example" +:+ LF;
               "https://b.example"]
              ("shop.example" +:+ LF)) as [Hread _];
    [reflexivity|reflexivity|reflexivity|vm_compute; reflexivity|].
  rewrite Hread. vm_compute. reflexivity.
Defined.

(** C3, on the [ftp] line of [Demo.websites_txt]: it adds nothing, and its
    URL is not in the list. *)
Lemma unsupported_scheme_dropped_witness :
  scheme_of (Py.strip ("ftp://files.example" +:+ LF)) = Some "ftp"
  /\ read_websites_from_file {[INPUT_FILE := Demo.websites_txt]} INPUT_FILE
     = Return (["https://shop.example"; "http://a.example/x"]
               ++ ["https://b.example"])
  /\ ~ In "ftp://files.example"
         (["https://shop.example"; "http://a.example/x"]
          ++ ["https://b.example"]).
Proof.
  split; [reflexivity|].
  destruct (unsupported_scheme_dropped
              {[INPUT_FILE := Demo.websites_txt]} INPUT_FILE
              ["# shops" +:+ LF; LF; "shop.example" +:+ LF;
               "  http://a.example/x  " +:+ LF]
              ["https://b.example"]
              ("ftp://files.example" +:+ LF) "ftp") as [Hdrop _];
    [reflexivity|reflexivity|reflexivity|discriminate
    |vm_compute; reflexivity|].
  destruct Hdrop as [Hread Hnot]; [discriminate|discriminate|].
  split.
  - rewrite Hread. vm_compute. reflexivity.
  - exact (Hnot cpython_default_scheme_recognised).
Defined.

(** C4, on [Demo.three_sites]. *)
Lemma orchestrator_calls_witness :
  exists st' per_site,
    main (Demo.start Demo.three_sites [Demo.old_row] []) = (Return tt, st')
    /\ events st' =
         [] ++ [EBrowser (inr tt); ECsvSaver the_data_saver]
         ++ concat per_site
    /\ Forall2 (iteration_events tt the_data_saver)
         ["https://empty.example"; "https://down.example";
          "https://shop.example"] per_site
    /\ factory_calls (concat per_site)
       = [("https://empty.example", tt, 10%Z, 1%Z);
          ("https://down.example", tt, 10%Z, 1%Z);
          ("https://shop.example", tt, 10%Z, 1%Z)].
Proof.
  apply (orchestrator_calls (lib := Demo.library)
           (Demo.start Demo.three_sites [Demo.old_row] [])
           ["https://empty.example"; "https://down.example";
            "https://shop.example"] tt []);
    [vm_compute; reflexivity|discriminate|reflexivity].
Defined.

(** C5, on a site without email: one placeholder row after the old row. *)
Lemma placeholder_or_records_saved_witness :
  exists st',
    process_website tt the_data_saver "https://empty.example"
      (Demo.start Demo.three_sites [Demo.old_row] []) = (Return true, st')
    /\ output_rows st' =
         [Demo.old_row]
         ++ [["https://empty.example"; ""; "https://empty.example"]].
Proof.
  destruct (placeholder_or_records_saved (lib := Demo.library) tt
              "https://empty.example"
              (Demo.start Demo.three_sites [Demo.old_row] [])
              "https://empty.example" "https://empty.example" []
              [] [] [])
    as (r & st' & Hr & _ & Hcase);
    [reflexivity|reflexivity|reflexivity|].
  vm_compute in Hr. subst r. destruct Hcase as [Hrun [_ Hrows]].
  exists st'. split; [exact Hrun|exact Hrows].
Defined.

(** C5 as stated fails: [get_data] returns an empty list, the [save] of
    the placeholder raises, and the row that ends up in [output.csv] is an
    error row, not a placeholder. *)
Lemma placeholder_lost_when_save_raises :
  get_data "https://empty.example" [true] = (inr [], [true])
  /\ output_rows
       (process_website tt the_data_saver "https://empty.example"
          (Demo.start Demo.three_sites [] [true])).2
     = [["ERROR_DURING_PROCESSING"; "ERROR: OSError: disk full";
         "https://empty.example"]]
  /\ ~ In ["https://empty.example"; ""; "https://empty.example"]
         (output_rows
            (process_website tt the_data_saver "https://empty.example"
               (Demo.start Demo.three_sites [] [true])).2).
Proof.
  split; [reflexivity|]. split; [vm_compute; reflexivity|].
  vm_compute. intros [Heq|[]]. discriminate Heq.
Qed.

(** C6, on a site that is down: one error row after the old row. *)
Lemma error_record_saved_witness :
  exists flag st',
    process_website tt the_data_saver "https://down.example"
      (Demo.start Demo.three_sites [Demo.old_row] []) = (Return flag, st')
    /\ output_rows st' =
         [Demo.old_row]
         ++ [["ERROR_DURING_PROCESSING";
              "ERROR: ConnectionError: no route to host";
              "https://down.example"]].
Proof.
  destruct (error_record_saved (lib := Demo.library) tt "https://down.example"
              (Demo.start Demo.three_sites [Demo.old_row] [])
              (try_body (lib := Demo.library) tt the_data_saver
                 "https://down.example"
                 (Demo.start Demo.three_sites [Demo.old_row] [])).2
              {| exc_type := "ConnectionError";
                 exc_msg := "no route to host" |})
    as (flag & st' & r & Hrun & Hr & _ & Hcase & _);
    [vm_compute; reflexivity|].
  vm_compute in Hr. subst r. destruct Hcase as [_ [_ Hrows]].
  exists flag, st'. split; [exact Hrun|exact Hrows].
Defined.

(** C6 as stated fails: [get_data] raises, the [save] of the error record
    raises too, and [output.csv] holds what it held before. *)
Lemma error_record_lost_when_save_raises :
  (try_body tt the_data_saver "https://down.example"
     (Demo.start Demo.three_sites [Demo.old_row] [true])).1
  = Raise {| exc_type := "ConnectionError"; exc_msg := "no route to host" |}
  /\ (process_website tt the_data_saver "https://down.example"
        (Demo.start Demo.three_sites [Demo.old_row] [true])).1
     = Return false
  /\ output_rows
       (process_website tt the_data_saver "https://down.example"
          (Demo.start Demo.three_sites [Demo.old_row] [true])).2
     = [Demo.old_row].
Proof. repeat split; vm_compute; reflexivity. Qed.

(** C8, without input file and with an input file that gives nothing. *)
Lemma early_exits_witness :
  main Demo.no_input = (SysExit 1, Demo.no_input)
  /\ main (Demo.start ["# none" +:+ LF; "ftp://files.example" +:+ LF]
             [Demo.old_row] [])
     = (SysExit 0,
        Demo.start ["# none" +:+ LF; "ftp://files.example" +:+ LF]
          [Demo.old_row] []).
Proof.
  split.
  - apply (early_exits Demo.no_input). reflexivity.
  - apply (early_exits
             (Demo.start ["# none" +:+ LF; "ftp://files.example" +:+ LF]
                [Demo.old_row] []))
      with (lines := ["# none" +:+ LF; "ftp://files.example" +:+ LF]);
      [reflexivity|vm_compute; reflexivity|vm_compute; reflexivity].
Defined.

(** C9, on a site that is down. *)
Lemma error_email_text_witness :
  error_placeholder "https://down.example"
    {| exc_type := "ConnectionError"; exc_msg := "no route to host" |}
    !! "email"
  = Some "ERROR: ConnectionError: no route to host"
  /\ exists r,
       events (process_website tt the_data_saver "https://down.example"
                 (Demo.start Demo.three_sites [] [])).2
       = events (try_body tt the_data_saver "https://down.example"
                   (Demo.start Demo.three_sites [] [])).2
         ++ [ESave the_data_saver
               [Dict (error_placeholder "https://down.example"
                        {| exc_type := "ConnectionError";
                           exc_msg := "no route to host" |})] r].
Proof.
  destruct (error_email_text "https://down.example"
              {| exc_type := "ConnectionError";
                 exc_msg := "no route to host" |})
    as (Hemail & _ & _ & Hsaved).
  split; [exact Hemail|].
  apply Hsaved. vm_compute. reflexivity.
Defined.

(** C10, on a site that is down while the saver fails. *)
Lemma loop_never_raises_witness :
  exists st',
    process_website tt the_data_saver "https://down.example"
      (Demo.start Demo.three_sites [Demo.old_row] [true])
    = (Return false, st')
    /\ csvs st' = {[OUTPUT_FILE := [Demo.old_row]]}.
Proof.
  destruct (loop_never_raises (lib := Demo.library) tt the_data_saver)
    as (_ & Hcaught & _).
  apply (Hcaught "https://down.example"
           (Demo.start Demo.three_sites [Demo.old_row] [true])
           {| exc_type := "ConnectionError"; exc_msg := "no route to host" |}
           (try_body (lib := Demo.library) tt the_data_saver
              "https://down.example"
              (Demo.start Demo.three_sites [Demo.old_row] [true])).2
           {| exc_type := "OSError"; exc_msg := "disk full" |} []);
    vm_compute; reflexivity.
Defined.

(** * Further properties *)

(** ** White space *)

Lemma lstrip_head s :
  Py.lstrip s = EmptyString
  \/ exists c r, Py.lstrip s = String c r /\ Py.isspace c = false.
Proof.
  induction s as [|c s IH]; cbn; [by left|].
  destruct (Py.isspace c) eqn:Hc; [exact IH|].
  right. by exists c, s.
Qed.

Lemma lstrip_fixed c r :
  Py.isspace c = false -> Py.lstrip (String c r) = String c r.
Proof. intros Hc. cbn. by rewrite Hc. Qed.

Lemma rstrip_cons c s :
  Py.rstrip (String c s) =
  match Py.rstrip s with
  | EmptyString => if Py.isspace c then EmptyString else String c EmptyString
  | r => String c r
  end.
Proof. reflexivity. Qed.

Lemma rstrip_idem s : Py.rstrip (Py.rstrip s) = Py.rstrip s.
Proof.
  induction s as [|c s IH]; [reflexivity|].
  rewrite rstrip_cons. destruct (Py.rstrip s) as [|d r] eqn:Hr.
  - destruct (Py.isspace c) eqn:Hc; [reflexivity|].
    rewrite rstrip_cons. cbn [Py.rstrip]. by rewrite Hc.
  - rewrite rstrip_cons, IH. reflexivity.
Qed.

(** [rstrip] keeps a first character that is not white space. *)
Lemma rstrip_head c r :
  Py.isspace c = false ->
  exists r', Py.rstrip (String c r) = String c r'.
Proof.
  intros Hc. cbn [Py.rstrip].
  destruct (Py.rstrip r) as [|d r'].
  - rewrite Hc. by exists EmptyString.
  - by exists (String d r').
Qed.

Lemma strip_idem s : Py.strip (Py.strip s) = Py.strip s.
Proof.
  unfold Py.strip.
  destruct (lstrip_head s) as [->|(c & r & -> & Hc)]; [reflexivity|].
  destruct (rstrip_head c r Hc) as [r' Hr]. rewrite Hr.
  rewrite (lstrip_fixed _ _ Hc), <- Hr. apply rstrip_idem.
Qed.

(** The stripped text of a line starts with no white space. *)
Lemma strip_head s :
  Py.strip s = EmptyString
  \/ exists c r, Py.strip s = String c r /\ Py.isspace c = false.
Proof.
  unfold Py.strip.
  destruct (lstrip_head s) as [->|(c & r & -> & Hc)]; [by left|].
  destruct (rstrip_head c r Hc) as [r' Hr]. right. by exists c, r'.
Qed.

Lemma rstrip_app a v :
  Py.rstrip v = v -> v <> EmptyString -> Py.rstrip (a +:+ v) = a +:+ v.
Proof.
  intros Hv Hne. induction a as [|c a IH]; [exact Hv|].
  change (String c a +:+ v) with (String c (a +:+ v)).
  rewrite rstrip_cons, IH.
  destruct (a +:+ v) as [|d r] eqn:Ha; [|reflexivity].
  destruct a; [cbn in Ha; contradiction|discriminate].
Qed.

(** A line terminator after the text is stripped away. *)
Lemma rstrip_LF s : Py.rstrip (s +:+ LF) = Py.rstrip s.
Proof.
  induction s as [|c s IH]; [reflexivity|].
  change (String c s +:+ LF) with (String c (s +:+ LF)).
  by rewrite !rstrip_cons, IH.
Qed.

Lemma strip_rstrip_fixed s : Py.rstrip (Py.strip s) = Py.strip s.
Proof. unfold Py.strip. apply rstrip_idem. Qed.

(** ** More on the reader *)

Section ReaderMore.
Context `{url_lib : UrlLib}.

(** The URL that a kept line gives is clean. *)
Lemma normalize_clean v :
  candidate (Py.strip v) = true -> clean_url (normalize (Py.strip v)).
Proof.
  intros Hc. unfold candidate, Py.truthy in Hc.
  apply andb_true_iff in Hc as [Hne Hhash].
  apply negb_true_iff in Hne, Hhash.
  apply String.eqb_neq in Hne.
  assert (Hsame : clean_url (Py.strip v)).
  { split; [exact Hne|]. split; [exact Hhash|apply strip_idem]. }
  unfold normalize.
  destruct (scheme_of (Py.strip v)) as [[|c s]|]; try exact Hsame.
  split; [discriminate|]. split; [reflexivity|].
  change (DEFAULT_SCHEME +:+ "://" +:+ Py.strip v)
    with ("https://" +:+ Py.strip v).
  unfold Py.strip at 1.
  change (Py.lstrip ("https://" +:+ Py.strip v))
    with ("https://" +:+ Py.strip v).
  apply rstrip_app; [apply strip_rstrip_fixed|exact Hne].
Qed.

Lemma supported_lines_clean lines :
  Forall clean_url (supported_lines_normalized lines).
Proof.
  unfold supported_lines_normalized.
  induction lines as [|line lines IH]; [constructor|].
  cbn [map List.filter].
  destruct (candidate (Py.strip line)) eqn:Hc; [|exact IH].
  cbn [List.filter].
  destruct (supported (Py.strip line)); [|exact IH].
  cbn [map]. constructor; [exact (normalize_clean _ Hc)|exact IH].
Qed.

Lemma returned_urls_clean_aux
    (texts : gmap string (list string)) (filename : string)
    (lines websites : list string) :
  texts !! filename = Some lines ->
  read_websites_from_file texts filename = Return websites ->
  Forall clean_url websites.
Proof.
  intros Hf. unfold read_websites_from_file.
  rewrite Hf, read_lines_spec.
  destruct (first_parse_error lines); [discriminate|].
  intros [= <-]. apply supported_lines_clean.
Qed.

(** X1.  Every URL that [read_websites_from_file] returns is not empty, does
    not start with [#] and has no white space at its ends; and the list is
    no longer than the file. *)
Theorem returned_urls_are_clean
    (texts : gmap string (list string)) (filename : string)
    (lines websites : list string) :
  texts !! filename = Some lines ->
  read_websites_from_file texts filename = Return websites ->
  Forall clean_url websites /\ (length websites <= length lines)%nat.
Proof.
  intros Hf. unfold read_websites_from_file.
  rewrite Hf, read_lines_spec.
  destruct (first_parse_error lines); [discriminate|].
  intros [= <-]. split; [apply supported_lines_clean|].
  unfold supported_lines_normalized.
  rewrite length_map.
  etransitivity; [apply List.filter_length_le|].
  etransitivity; [apply List.filter_length_le|].
  by rewrite length_map.
Qed.


Lemma strip_line u :
  clean_url u -> Py.strip (u +:+ LF) = u.
Proof.
  intros (Hne & _ & Hstrip).
  destruct (strip_head u) as [He|(c & r & Hu & Hc)]; [congruence|].
  rewrite Hstrip in Hu. subst u. unfold Py.strip in *.
  change (String c r +:+ LF) with (String c (r +:+ LF)).
  rewrite (lstrip_fixed _ _ Hc). rewrite (lstrip_fixed _ _ Hc) in Hstrip.
  change (String c (r +:+ LF)) with (String c r +:+ LF).
  by rewrite rstrip_LF.
Qed.

Lemma read_lines_own_output websites :
  Forall clean_url websites ->
  (forall u, In u websites ->
     exists parsed, urlparse u = inr parsed
                    /\ (scheme parsed = "http" \/ scheme parsed = "https")) ->
  read_lines (map (fun u => u +:+ LF) websites) [] = inr websites.
Proof.
  intros Hclean Hparse. rewrite read_lines_spec.
  induction websites as [|u websites IH]; [reflexivity|].
  apply Forall_cons in Hclean as [Hu Hclean].
  pose proof (strip_line u Hu) as Hline.
  destruct Hu as (Hne & Hhash & Hstrip).
  destruct (Hparse u) as (parsed & Hp & Hs); [by left|].
  assert (Hcand : candidate u = true).
  { unfold candidate, Py.truthy. rewrite Hhash.
    apply andb_true_iff. split; [|reflexivity].
    apply negb_true_iff. by apply String.eqb_neq. }
  specialize (IH Hclean (fun v Hv => Hparse v (or_intror Hv))).
  cbn [map first_parse_error]. rewrite Hline, Hcand, Hp.
  destruct (first_parse_error (map (fun u => u +:+ LF) websites));
    [discriminate|].
  injection IH as IH. f_equal.
  change ((u +:+ LF) :: map (fun u => u +:+ LF) websites)
    with ([u +:+ LF] ++ map (fun u => u +:+ LF) websites).
  rewrite supported_lines_normalized_app, IH.
  rewrite kept_line; rewrite Hline; [|exact Hcand|].
  - cbn [app]. f_equal. unfold normalize, scheme_of. rewrite Hp.
    destruct Hs as [-> | ->]; reflexivity.
  - unfold supported, scheme_of. rewrite Hp.
    apply orb_true_iff. right. by apply contains_http_https.
Qed.

(** X3.  Reading its own output gives it back: when [urlparse] accepts each
    returned URL with scheme [http] or [https], a file that holds the
    returned URLs, one per line, is read as the same list. *)
Theorem read_own_output
    (texts texts' : gmap string (list string)) (filename filename' : string)
    (lines websites : list string) :
  texts !! filename = Some lines ->
  read_websites_from_file texts filename = Return websites ->
  (forall u, In u websites ->
     exists parsed, urlparse u = inr parsed
                    /\ (scheme parsed = "http" \/ scheme parsed = "https")) ->
  texts' !! filename' = Some (map (fun u => u +:+ LF) websites) ->
  read_websites_from_file texts' filename' = Return websites.
Proof.
  intros Hf Hread Hparse Hf'.
  pose proof (returned_urls_clean_aux texts filename lines websites Hf Hread)
    as Hclean.
  unfold read_websites_from_file.
  by rewrite Hf', (read_lines_own_output _ Hclean Hparse).
Qed.

End ReaderMore.

(** ** More on the loop *)

Section LoopMore.
Context `{url_lib : UrlLib} `{lib : ExtractEmails}.

(** X4.  One line that [urlparse] rejects stops the whole run: [main] ends
    with that error, whatever the lines after it are, before the browser and
    the saver are built, with no call into the library and nothing
    written. *)
Theorem parse_error_stops_the_run (st : State) (l1 l2 : list string)
    (line : string) (e : PyExc) :
  texts st !! INPUT_FILE = Some (l1 ++ line :: l2) ->
  first_parse_error l1 = None ->
  candidate (Py.strip line) = true ->
  urlparse (Py.strip line) = inl e ->
  main st = (Raise e, st).
Proof.
  intros Hf H1 Hc Hp. rewrite main_eq. unfold read_websites_from_file.
  rewrite Hf, read_lines_spec, first_parse_error_app, H1.
  cbn [first_parse_error]. by rewrite Hc, Hp.
Qed.

(** X5.  [Browser()] is outside every [try]: when it raises, [main] ends
    with that exception, no saver is built, no website is visited and the
    CSV files are as they were. *)
Theorem browser_failure_stops_the_run (st : State)
    (websites : list string) (e : PyExc) (w : World) :
  read_websites_from_file (texts st) INPUT_FILE = Return websites ->
  websites <> [] ->
  new_Browser (world st) = (inl e, w) ->
  (main st).1 = Raise e
  /\ events (main st).2 = events st ++ [EBrowser (inl e)]
  /\ csvs (main st).2 = csvs st.
Proof.
  intros Hread Hne Hb. rewrite main_eq, Hread, Hb.
  destruct websites; [contradiction|]. by repeat split.
Qed.

Lemma save_results_app evs1 evs2 :
  save_results (evs1 ++ evs2) = save_results evs1 ++ save_results evs2.
Proof. apply flat_map_app. Qed.

Lemma visited_app evs1 evs2 :
  visited (evs1 ++ evs2) = visited evs1 ++ visited evs2.
Proof. apply flat_map_app. Qed.

(** The three ways an iteration ends. *)
Lemma process_website_cases b sv website st :
  exists flag st' tail,
    process_website b sv website st = (Return flag, st')
    /\ events st' = events st ++ tail
    /\ ((flag = true
         /\ try_events b sv website None tail
         /\ exists raw_data,
              saved_rows sv st st' (records_to_save website raw_data))
        \/ (exists e evs,
              try_events b sv website (Some e) evs
              /\ ((flag = true
                   /\ tail = evs ++ [ESave sv [Dict (error_placeholder
                                                      website e)] None]
                   /\ saved_rows sv st st'
                        [Dict (error_placeholder website e)])
                  \/ (exists e',
                        flag = false
                        /\ tail = evs ++ [ESave sv [Dict (error_placeholder
                                                           website e)]
                                            (Some e')]
                        /\ csvs st' = csvs st)))).
Proof.
  destruct (try_body_run b sv website st) as (evs & Hev & _ & Hout).
  unfold process_website.
  destruct (try_body b sv website st) as [[flag|e|s] st1] eqn:Htry;
    cbn [fst snd] in *; [| |contradiction].
  - destruct Hout as (-> & Htail & Hrows).
    rewrite (try_except_Return _ _ _ _ _ Htry).
    exists true, st1, evs. split; [reflexivity|]. split; [exact Hev|].
    by left.
  - destruct Hout as [Htail Hcsv].
    rewrite (try_except_Raise _ _ _ _ _ Htry), except_body_eq.
    destruct (save_error sv [Dict (error_placeholder website e)] (world st1))
      as [[e'|] w].
    + eexists _, _, _. split; [reflexivity|]. cbn [events csvs].
      split; [by rewrite Hev, <- app_assoc|].
      right. exists e, evs. split; [exact Htail|]. right. by exists e'.
    + eexists _, _, _. split; [reflexivity|]. cbn [events csvs].
      split; [by rewrite Hev, <- app_assoc|].
      right. exists e, evs. split; [exact Htail|]. left.
      split; [reflexivity|]. split; [reflexivity|].
      unfold saved_rows. cbn [csvs]. by rewrite Hcsv.
Qed.

Lemma saves_app evs1 evs2 :
  saves (evs1 ++ evs2) = saves evs1 ++ saves evs2.
Proof. apply flat_map_app. Qed.

(** The [save] of a [try] block, by how the block ends. *)
Lemma try_events_saves b sv website o evs :
  try_events b sv website o evs ->
  visited evs = [website]
  /\ match o with
     | None =>
         exists wk raw_data,
           In (EGetData wk (inr raw_data)) evs
           /\ saves evs = [(sv, records_to_save website raw_data, None)]
     | Some e =>
         saves evs = []
         \/ exists wk raw_data,
              In (EGetData wk (inr raw_data)) evs
              /\ saves evs = [(sv, records_to_save website raw_data, Some e)]
     end.
Proof.
  intros Htry. split; [by inversion Htry|].
  inversion Htry; subst; cbn [saves flat_map app];
    try (by left);
    try right; eexists _, _; (split; [|reflexivity]); cbn; tauto.
Qed.

(** X6.  Every iteration visits its website once and makes one or two
    [save] calls through the saver, never none and never more.  When the
    [try] block returns, its [save] of the records (or of the placeholder)
    succeeded and is the only one.  When a library call of the [try] block
    raises [e], the only [save] is that of the error record built from [e].
    When the [save] of the [try] block itself raises [e], and only then,
    there are two: that one, and after it the [save] of the error record
    built from [e]. *)
Theorem one_or_two_saves (b : Browser) (sv : CsvSaver) (website : string)
    (st : State) :
  exists tail,
    events (process_website b sv website st).2 = events st ++ tail
    /\ visited tail = [website]
    /\ ((exists wk raw_data,
           (try_body b sv website st).1 = Return true
           /\ In (EGetData wk (inr raw_data)) tail
           /\ saves tail = [(sv, records_to_save website raw_data, None)])
        \/ (exists e r,
              (try_body b sv website st).1 = Raise e
              /\ saves tail
                 = [(sv, [Dict (error_placeholder website e)], r)])
        \/ (exists wk raw_data e r,
              (try_body b sv website st).1 = Raise e
              /\ In (EGetData wk (inr raw_data)) tail
              /\ saves tail
                 = [(sv, records_to_save website raw_data, Some e);
                    (sv, [Dict (error_placeholder website e)], r)])).
Proof.
  destruct (try_body_run b sv website st) as (evs & Hev & _ & Hout).
  unfold process_website.
  destruct (try_body b sv website st) as [[flag|e|s] st1] eqn:Htry;
    cbn [fst snd] in *; [| |contradiction].
  - destruct Hout as (-> & Htail & _).
    rewrite (try_except_Return _ _ _ _ _ Htry). cbn [snd].
    destruct (try_events_saves _ _ _ _ _ Htail)
      as (Hv & wk & raw_data & Hin & Hs).
    exists evs. split; [exact Hev|]. split; [exact Hv|].
    left. by exists wk, raw_data.
  - destruct Hout as [Htail _].
    rewrite (try_except_Raise _ _ _ _ _ Htry), except_body_eq.
    destruct (try_events_saves _ _ _ _ _ Htail) as (Hv & Hs).
    assert (Hrun : exists r,
      events
        (match save_error sv [Dict (error_placeholder website e)] (world st1)
         with
         | (Some e', w) =>
             (Return false,
              {| texts := texts st1; csvs := csvs st1; world := w;
                 events := events st1
                   ++ [ESave sv [Dict (error_placeholder website e)]
                         (Some e')] |})
         | (None, w) =>
             (Return true,
              {| texts := texts st1;
                 csvs := <[output_path sv :=
                             write_rows (save_mode sv)
                               (default [] (csvs st1 !! output_path sv))
                               [csv_row (headers sv)
                                  (Dict (error_placeholder website e))]]>
                           (csvs st1);
                 world := w;
                 events := events st1
                   ++ [ESave sv [Dict (error_placeholder website e)] None] |})
         end).2
      = events st
        ++ (evs ++ [ESave sv [Dict (error_placeholder website e)] r])).
    { destruct (save_error _ _ _) as [[e'|] w]; eexists; cbn [snd events];
        by rewrite Hev, <- app_assoc. }
    destruct Hrun as (r & Hrun).
    exists (evs ++ [ESave sv [Dict (error_placeholder website e)] r]).
    split; [exact Hrun|].
    split; [by rewrite visited_app, Hv|].
    rewrite saves_app. cbn [saves flat_map app].
    destruct Hs as [->|(wk & raw_data & Hin & ->)].
    + right. left. by exists e, r.
    + right. right. exists wk, raw_data, e, r.
      split; [reflexivity|]. split; [|reflexivity].
      apply in_or_app. by left.
Qed.

Lemma records_to_save_length website (raw_data : list PageData) :
  (1 <= length (records_to_save website raw_data))%nat.
Proof. destruct raw_data; cbn; [lia|rewrite length_map; cbn; lia]. Qed.

(** X7.  The value of [data_found_for_website] at the end of an iteration
    tells whether the iteration wrote to [output.csv]: [True] when at least
    one row was appended, [False] only when the CSV files are exactly as
    before. *)
Theorem flag_tells_whether_rows_were_written (b : Browser)
    (website : string) (st : State) :
  exists flag st' rows,
    process_website b the_data_saver website st = (Return flag, st')
    /\ appended st st' rows
    /\ (flag = true -> (1 <= length rows)%nat)
    /\ (flag = false -> rows = [] /\ csvs st' = csvs st).
Proof.
  destruct (process_website_cases b the_data_saver website st)
    as (flag & st' & tail & Hrun & _ & Hcase).
  exists flag, st'.
  destruct Hcase as [(-> & _ & raw_data & Hrows)
                    |(e & evs & _ & [(-> & _ & Hrows)|(e' & -> & _ & Hc)])].
  - apply saved_rows_appended in Hrows as Happ.
    eexists. split; [exact Hrun|]. split; [exact Happ|].
    split; [|discriminate]. intros _. rewrite length_map.
    apply records_to_save_length.
  - apply saved_rows_appended in Hrows as Happ.
    eexists. split; [exact Hrun|]. split; [exact Happ|].
    split; [|discriminate]. intros _. cbn. lia.
  - exists []. split; [exact Hrun|].
    split; [by apply appended_same_csvs|]. split; [discriminate|].
    by intros _.
Qed.

Lemma crawl_rows_aux b websites :
  forall st st' tail,
    crawl b the_data_saver websites st = (Return tt, st') ->
    events st' = events st ++ tail ->
    Forall (fun r => r = None) (save_results tail) ->
    exists rows,
      appended st st' rows /\ (length websites <= length rows)%nat.
Proof.
  induction websites as [|website rest IH]; intros st st' tail Hrun Hev Hok.
  - cbn in Hrun. injection Hrun as <-. exists [].
    split; [apply appended_refl|reflexivity].
  - destruct (process_website_cases b the_data_saver website st)
      as (flag & st1 & tail1 & Hone & Hev1 & Hcase).
    cbn [crawl] in Hrun. unfold bind at 1 in Hrun. rewrite Hone in Hrun.
    destruct (crawl_run b the_data_saver rest st1)
      as (st2 & per_site & Hrest & Hev2 & _).
    rewrite Hrun in Hrest. injection Hrest as <-.
    assert (Htail : tail = tail1 ++ concat per_site).
    { rewrite Hev1, <- app_assoc in Hev2. rewrite Hev in Hev2.
      by apply app_inv_head in Hev2. }
    subst tail. rewrite save_results_app in Hok.
    apply Forall_app in Hok as [Hok1 Hok2].
    destruct (IH st1 st' (concat per_site) Hrun Hev2 Hok2)
      as (rows2 & Happ2 & Hlen2).
    assert (Hrows1 : exists rows1,
               appended st st1 rows1 /\ (1 <= length rows1)%nat).
    { destruct Hcase as [(_ & _ & raw_data & Hrows)
                        |(e & evs & _
                          & [(_ & _ & Hrows)|(e' & _ & -> & _)])].
      - apply saved_rows_appended in Hrows as Happ.
        eexists. split; [exact Happ|]. rewrite length_map.
        apply records_to_save_length.
      - apply saved_rows_appended in Hrows as Happ.
        eexists. split; [exact Happ|]. cbn. lia.
      - rewrite save_results_app in Hok1.
        apply Forall_app in Hok1 as [_ Hbad].
        apply Forall_cons in Hbad as [Hbad _]. discriminate Hbad. }
    destruct Hrows1 as (rows1 & Happ1 & Hlen1).
    exists (rows1 ++ rows2).
    split; [exact (appended_trans _ _ _ _ _ Happ1 Happ2)|].
    rewrite length_app. cbn [length]. lia.
Qed.

(** X8.  When no [save] of a run of the loop raises, every website leaves
    at least one row in [output.csv]: the file grows by at least as many
    rows as there are websites. *)
Theorem every_website_leaves_a_row (b : Browser) (websites : list string)
    (st : State) (tail : list Event) :
  events (crawl b the_data_saver websites st).2 = events st ++ tail ->
  Forall (fun r => r = None) (save_results tail) ->
  exists rows,
    appended st (crawl b the_data_saver websites st).2 rows
    /\ (length websites <= length rows)%nat.
Proof.
  destruct (crawl_run b the_data_saver websites st)
    as (st' & per_site & Hrun & _).
  rewrite Hrun. cbn [snd].
  exact (crawl_rows_aux b websites st st' tail Hrun).
Qed.

(** X9.  The loop can be cut anywhere: running it on one part of the list
    and then, from the state reached, on the rest is running it on the
    whole list. *)
Theorem crawl_app (b : Browser) (sv : CsvSaver)
    (websites1 websites2 : list string) (st : State) :
  crawl b sv (websites1 ++ websites2) st
  = crawl b sv websites2 (crawl b sv websites1 st).2.
Proof.
  revert st. induction websites1 as [|website rest IH]; intros st;
    [reflexivity|].
  destruct (process_website_run b sv website st)
    as (flag & st1 & _ & Hrun & _).
  cbn [app crawl]. rewrite !(bind_Return _ _ _ _ _ Hrun). apply IH.
Qed.

(** X10.  The two dicts that the script builds have exactly the keys of
    [CSV_HEADERS]: every column gets a value and no key falls outside the
    columns. *)
Theorem script_dicts_have_the_header_keys (website : string) (e : PyExc) :
  dom (placeholder website) = list_to_set CSV_HEADERS
  /\ dom (error_placeholder website e) = list_to_set CSV_HEADERS
  /\ (forall h, In h CSV_HEADERS ->
        is_Some (placeholder website !! h)
        /\ is_Some (error_placeholder website e !! h)).
Proof.
  split; [|split].
  - unfold placeholder, CSV_HEADERS.
    rewrite !dom_insert_L, dom_singleton_L. set_solver.
  - unfold error_placeholder, CSV_HEADERS.
    rewrite !dom_insert_L, dom_singleton_L. set_solver.
  - intros h [<-|[<-|[<-|[]]]]; split; eexists; reflexivity.
Qed.

Lemma prefix_append a s : String.prefix a (a +:+ s) = true.
Proof.
  induction a as [|c a IH]; [by destruct s|].
  change (String c a +:+ s) with (String c (a +:+ s)).
  cbn [String.prefix].
  destruct (Ascii.ascii_dec c c); [exact IH|contradiction].
Qed.

(** X11.  The email cell of an error row always starts with ['ERROR: '],
    so it is never empty and never looks like an address; and when the
    whole text has at most 200 characters nothing of it is cut. *)
Theorem error_email_shape (website : string) (e : PyExc) :
  exists email,
    error_placeholder website e !! "email" = Some email
    /\ String.prefix "ERROR: " email = true
    /\ ((String.length ("ERROR: " +:+ exc_type e +:+ ": " +:+ exc_msg e)
         <= 200)%nat ->
        email = "ERROR: " +:+ exc_type e +:+ ": " +:+ exc_msg e).
Proof.
  eexists. split; [|split].
  - unfold error_placeholder.
    rewrite lookup_insert_ne by discriminate. apply lookup_insert_eq.
  - change (Py.slice_to 200
              ("ERROR: " +:+ exc_type e +:+ ": " +:+ exc_msg e))
      with ("ERROR: "
            +:+ Py.slice_to 193 (exc_type e +:+ ": " +:+ exc_msg e)).
    apply prefix_append.
  - apply slice_to_short.
Qed.

End LoopMore.

(** ** [tmp.py] *)

Section TmpFacts.
Context `{lib : ExtractEmails}.

(** One iteration of the loop of [tmp.py]. *)
Lemma tmp_body_run b sv website st :
  exists tail,
    events (Tmp.body b sv website st).2 = events st ++ tail
    /\ visited tail = [website]
    /\ factory_calls tail = [(website, b, 5%Z, 1%Z)]
    /\ Forall (fun saver => saver = sv) (save_calls tail)
    /\ match (Tmp.body b sv website st).1 with
       | Return _ => raised tail = []
       | Raise e => raised tail = [e]
       | SysExit _ => False
       end.
Proof.
  unfold Tmp.body, Factory_, DefaultWorker_, get_data_.
  rewrite bind_call.
  destruct (new_Factory website b 5 1 (world st)) as [[e|f] w1].
  { eexists. cbn [fst snd events].
    repeat split; first [done|by repeat constructor]. }
  rewrite bind_call. cbn [world].
  destruct (new_DefaultWorker f w1) as [[e|wk] w2].
  { eexists. cbn [fst snd events].
    split; [by rewrite <- app_assoc|].
    repeat split; first [done|by repeat constructor]. }
  rewrite bind_call. cbn [world].
  destruct (get_data wk w2) as [[e|data] w3].
  { eexists. cbn [fst snd events].
    split; [by rewrite <- !app_assoc|].
    repeat split; first [done|by repeat constructor]. }
  unfold save. cbn [world events].
  destruct (save_error sv (map Obj data) w3) as [[e|] w4];
    eexists; cbn [fst snd events];
    (split; [by rewrite <- !app_assoc|]); repeat split;
    first [done|by repeat constructor].
Qed.


Lemma tmp_loop_cons b sv website rest st :
  Tmp.loop b sv (website :: rest) st =
  match Tmp.body b sv website st with
  | (Return _, st1) => Tmp.loop b sv rest st1
  | (Raise e, st1) => (Raise e, st1)
  | (SysExit s, st1) => (SysExit s, st1)
  end.
Proof. reflexivity. Qed.

Lemma raised_app evs1 evs2 :
  raised (evs1 ++ evs2) = raised evs1 ++ raised evs2.
Proof. apply flat_map_app. Qed.

(** X12.  The loop of [tmp.py] has no [try]: an exception of an iteration
    is at once the exception of the loop.  The loop visits the websites in
    order, each with depth 5 and max_links_from_page 1.  It returns only
    when no call of the run raised, and then all websites were visited.
    When a call raises, the loop ends with that exception, which is the
    only one of the run, and the websites after the failing one are never
    visited. *)
Theorem tmp_loop_stops_at_first_exception (b : Browser) (sv : CsvSaver) :
  (forall website rest st e st1,
     Tmp.body b sv website st = (Raise e, st1) ->
     Tmp.loop b sv (website :: rest) st = (Raise e, st1))
  /\ (forall websites st,
        exists tail,
          events (Tmp.loop b sv websites st).2 = events st ++ tail
          /\ factory_calls tail
             = map (fun website => (website, b, 5%Z, 1%Z)) (visited tail)
          /\ match (Tmp.loop b sv websites st).1 with
             | Return _ => visited tail = websites /\ raised tail = []
             | Raise e =>
                 exists done website rest,
                   websites = done ++ website :: rest
                   /\ visited tail = done ++ [website]
                   /\ raised tail = [e]
             | SysExit _ => False
             end).
Proof.
  split.
  { intros website rest st e st1 Hbody. by rewrite tmp_loop_cons, Hbody. }
  intros websites. induction websites as [|website rest IH]; intros st.
  - exists []. cbn. by rewrite app_nil_r.
  - destruct (tmp_body_run b sv website st)
      as (tail1 & Hev1 & Hv1 & Hf1 & _ & Hr1).
    rewrite tmp_loop_cons.
    destruct (Tmp.body b sv website st) as [[[]|e|s] st1]; cbn [fst snd] in *.
    + destruct (IH st1) as (tail2 & Hev2 & Hf2 & Hout).
      exists (tail1 ++ tail2).
      split; [by rewrite Hev2, Hev1, <- app_assoc|].
      split; [by rewrite factory_calls_app, visited_app, map_app,
                         Hf1, Hf2, Hv1|].
      rewrite visited_app, raised_app, Hv1, Hr1.
      destruct (Tmp.loop b sv rest st1).1 as [[]|e|s]; [| |exact Hout].
      * destruct Hout as [-> ->]. by split.
      * destruct Hout as (done & website' & rest' & -> & -> & ->).
        by exists (website :: done), website', rest'.
    + exists tail1. split; [exact Hev1|].
      split; [by rewrite Hf1, Hv1|].
      exists [], website, rest. by repeat split.
    + contradiction.
Qed.




End TmpFacts.

(** ** Concrete runs for the further properties *)

(** X1, on [Demo.websites_txt]. *)
Lemma returned_urls_are_clean_witness :
  Forall clean_url
    ["https://shop.example"; "http://a.example/x"; "https://b.example"]
  /\ (3 <= length Demo.websites_txt)%nat.
Proof.
  apply (returned_urls_are_clean
           {[INPUT_FILE := Demo.websites_txt]} INPUT_FILE Demo.websites_txt);
    [reflexivity|vm_compute; reflexivity].
Defined.

(** X3, on [Demo.websites_txt]: the three URLs, written one per line, are
    read as the same three URLs. *)
Lemma read_own_output_witness :
  read_websites_from_file
    {["clean.txt" :=
        ["https://shop.example" +:+ LF; "http://a.example/x" +:+ LF;
         "https://b.example" +:+ LF]]} "clean.txt"
  = Return ["https://shop.example"; "http://a.example/x";
            "https://b.example"].
Proof.
  apply (read_own_output
           {[INPUT_FILE := Demo.websites_txt]} _ INPUT_FILE "clean.txt"
           Demo.websites_txt);
    [reflexivity|vm_compute; reflexivity| |reflexivity].
  intros u [<-|[<-|[<-|[]]]]; eexists; (split; [reflexivity|]);
    [right|left|right]; reflexivity.
Defined.

(** X4, on [Demo.bad_line_txt]: the bracket of the second line is never
    closed. *)
Lemma parse_error_stops_the_run_witness :
  main (Demo.start Demo.bad_line_txt [Demo.old_row] [])
  = (Raise {| exc_type := "ValueError"; exc_msg := "Invalid IPv6 URL" |},
     Demo.start Demo.bad_line_txt [Demo.old_row] []).
Proof.
  apply (parse_error_stops_the_run
           (Demo.start Demo.bad_line_txt [Demo.old_row] [])
           ["shop.example" +:+ LF] ["https://b.example" +:+ LF]
           ("http://[::1" +:+ LF));
    vm_compute; reflexivity.
Defined.

(** X5, on the library without browser. *)
Lemma browser_failure_stops_the_run_witness :
  (main Demo.no_browser_start).1
  = Raise {| exc_type := "RuntimeError"; exc_msg := "no session" |}
  /\ csvs (main Demo.no_browser_start).2 = {[OUTPUT_FILE := [Demo.old_row]]}.
Proof.
  destruct (browser_failure_stops_the_run (lib := Demo.no_browser)
              Demo.no_browser_start
              ["https://empty.example"; "https://down.example";
               "https://shop.example"]
              {| exc_type := "RuntimeError"; exc_msg := "no session" |} [])
    as (Hout & _ & Hcsv);
    [vm_compute; reflexivity|discriminate|reflexivity|].
  split; [exact Hout|exact Hcsv].
Defined.

(** X8, on three sites with a saver that never fails: three rows. *)
Lemma every_website_leaves_a_row_witness :
  exists rows,
    appended (Demo.start Demo.three_sites [Demo.old_row] [])
      (crawl tt the_data_saver
         ["https://empty.example"; "https://down.example";
          "https://shop.example"]
         (Demo.start Demo.three_sites [Demo.old_row] [])).2 rows
    /\ (3 <= length rows)%nat.
Proof.
  apply (every_website_leaves_a_row (lib := Demo.library) tt
           ["https://empty.example"; "https://down.example";
            "https://shop.example"]
           (Demo.start Demo.three_sites [Demo.old_row] [])
           (events
              (crawl (lib := Demo.library) tt the_data_saver
                 ["https://empty.example"; "https://down.example";
                  "https://shop.example"]
                 (Demo.start Demo.three_sites [Demo.old_row] [])).2)).
  - reflexivity.
  - vm_compute. repeat constructor.
Defined.

